(** * userbase-server: the WebSocket listeners of [server.js]

    A shallow embedding of the listeners that [start] installs in
    [src/userbase-server/server.js]: the main-channel ['message'] listener,
    the forgot-password ['message'] listener and the [ping] sweep run by
    [setInterval].  The listeners are effectful JavaScript; they are modelled
    in a small monad that threads the per-socket state, collects the
    observable effects (log lines, frames sent, collaborator calls) in the
    order they happen, and distinguishes normal completion, an early
    [return] and a thrown exception.

    A listener's turn is taken as a whole: what another listener does while
    this one waits at an [await] is not modelled.  [logger] and [ws.send]
    are taken to succeed.  The modules the listeners call into ([./user],
    [./db], [./ws], [./statusCodes], [./responseBuilder]) are parameters of
    the model, or are modelled from the spec where a concrete one is
    needed. *)

From Stdlib Require Import List String ZArith Bool Lia RelationClasses.
Import ListNotations.
Local Open Scope string_scope.
Set Warnings "-register-all".

(** ** JavaScript values *)

(** The values a parsed request, a response or a status code can be.  The
    listeners never compute with the numbers of a request, they only pass them
    on or print them, so a number is carried as its [Number::toString]
    rendering. *)
Inductive Value : Type :=
| VUndefined
| VNull
| VBool (b : bool)
| VNum (repr : string)
| VStr (s : string)
| VArr (items : list Value)
| VObj (fields : list (string * Value)).

Fixpoint assoc (k : string) (fields : list (string * Value)) : option Value :=
  match fields with
  | [] => None
  | (k', v) :: rest => if String.eqb k k' then Some v else assoc k rest
  end.

(** Exceptions the listeners can meet. *)
Inductive Exn : Type :=
| SyntaxError                 (* JSON.parse on a malformed frame *)
| TypeError                   (* a property read on undefined or null *)
| Rejection (reason : Value)  (* an awaited collaborator promise rejects *)
| Error (message : string).   (* throw new Error(message) *)

(** [v.k]: reading property [k].  On [undefined] and [null] it throws a
    TypeError; on an object it is the field, or [undefined]; the property
    names the listeners read are not defined on the prototypes of strings,
    numbers, booleans and arrays, where the read gives [undefined]. *)
Definition member (v : Value) (k : string) : Exn + Value :=
  match v with
  | VUndefined | VNull => inl TypeError
  | VObj fields =>
      inr (match assoc k fields with Some x => x | None => VUndefined end)
  | _ => inr VUndefined
  end.

(** [v === 'lit'] for a string literal. *)
Definition is_string (v : Value) (lit : string) : bool :=
  match v with
  | VStr s => String.eqb s lit
  | _ => false
  end.

(** [a === b].  Arrays and objects compare by reference: two values that
    reach the listener from different places are never the same object. *)
Definition strict_eq (a b : Value) : bool :=
  match a, b with
  | VUndefined, VUndefined => true
  | VNull, VNull => true
  | VBool x, VBool y => Bool.eqb x y
  | VNum x, VNum y => String.eqb x y && negb (String.eqb x "NaN")
  | VStr x, VStr y => String.eqb x y
  | _, _ => false
  end.

(** [`${v}`]: the string conversion of a template literal.  A parsed
    object is converted by [Object.prototype.toString], unless it has a
    key of its own named toString: the value under it is not a function,
    and the conversion throws a TypeError.  An array is converted by
    [join], which converts its elements in turn. *)
Fixpoint ToString (v : Value) : Exn + string :=
  match v with
  | VUndefined => inr "undefined"
  | VNull => inr "null"
  | VBool true => inr "true"
  | VBool false => inr "false"
  | VNum repr => inr repr
  | VStr s => inr s
  | VArr items =>
      (fix join (l : list Value) : Exn + string :=
         match l with
         | [] => inr ""
         | x :: rest =>
             let piece := match x with
                          | VUndefined | VNull => inr ""
                          | _ => ToString x
                          end in
             match piece with
             | inl e => inl e
             | inr text =>
                 match rest with
                 | [] => inr text
                 | _ :: _ =>
                     match join rest with
                     | inl e => inl e
                     | inr more => inr (text ++ "," ++ more)
                     end
                 end
             end
         end) items
  | VObj fields =>
      match assoc "toString" fields with
      | Some _ => inl TypeError
      | None => inr "[object Object]"
      end
  end.

(** ** Frames *)

Definition ONE_KB : Z := 1024.
Definition FOUR_HUNDRED_KB : Z := 400 * ONE_KB.
Definition FIVE_KB : Z := 5 * ONE_KB.

(** What [JSON.parse(msg)] does on a frame. *)
Inductive ParseResult : Type :=
| Malformed
| Parses (request : Value).

(** An inbound frame [msg], by the three observations the listeners make of
    it: [msg.length] (defined on strings and Buffers), [msg.byteLength]
    (defined on Buffers and ArrayBuffers; [None] is [undefined]) and the
    outcome of [JSON.parse(msg)]. *)
Record Message : Type := {
  msg_length : option Z;
  msg_byteLength : option Z;
  msg_parse : ParseResult
}.

(** [x > limit] where [x] may be [undefined]. *)
Definition gt (x : option Z) (limit : Z) : bool :=
  match x with
  | Some n => (limit <? n)%Z
  | None => false
  end.

(** [msg.length > limit || msg.byteLength > limit] *)
Definition too_large (limit : Z) (msg : Message) : bool :=
  gt (msg_length msg) limit || gt (msg_byteLength msg) limit.

(** ** Collaborators and effects *)

(** The calls into the modules [./user] and [./db].  The arguments the
    closure fixes for the whole connection ([userId], [connectionId],
    [adminId], the server's validation message, ...) are left out. *)
Inductive Call : Type :=
| signOut (sessionId : Value)
| validateKey (validationMessage : Value)
| updateUser (username currentPasswordToken passwordToken passwordSalts
              email profile passwordBasedBackup : Value)
| deleteUserController
| openDatabase (dbNameHash newDatabaseParams reopenAtSeqNo : Value)
| doCommand (action dbNameHash dbId itemKey encryptedItem : Value)
| batchTransaction (dbNameHash dbId operations : Value)
| bundleTransactionLog (dbId seqNo bundle : Value)
| getPasswordSaltsByUserId
| generateForgotPasswordToken
| forgotPassword (forgotPasswordToken : Value).

(** The calls that reach the database module. *)
Definition is_db_call (c : Call) : bool :=
  match c with
  | openDatabase _ _ _ | doCommand _ _ _ _ _
  | batchTransaction _ _ _ | bundleTransactionLog _ _ _ => true
  | _ => false
  end.

(** An awaited call resolves with a response or rejects. *)
Inductive Outcome : Type :=
| Resolves (response : Value)
| Rejects (reason : Value).

Inductive Level : Type := info | warn | error.

(** What [ws.send] is given: a plain string, or [JSON.stringify] of an
    object. *)
Inductive Outbound : Type :=
| Plain (text : string)
| JSON_stringify (v : Value).

(** The observable effects, in the order they happen. *)
Inductive Event : Type :=
| Logged (level : Level) (text : string)
| Sent (data : Outbound)
| Parsing                         (* JSON.parse(msg) *)
| Consulted (atCapacity : bool)   (* conn.rateLimiter.atCapacity() *)
| Invoked (c : Call)
| Terminate.                      (* ws.terminate() *)

Definition is_sent (e : Event) : bool :=
  match e with Sent _ => true | _ => false end.
Definition is_invoked (e : Event) : bool :=
  match e with Invoked _ => true | _ => false end.
Definition is_db_invoked (e : Event) : bool :=
  match e with Invoked c => is_db_call c | _ => false end.
Definition is_consulted (e : Event) : bool :=
  match e with Consulted _ => true | _ => false end.
Definition is_parsing (e : Event) : bool :=
  match e with Parsing => true | _ => false end.
Definition is_terminate (e : Event) : bool :=
  match e with Terminate => true | _ => false end.
Definition is_error_log (e : Event) : bool :=
  match e with Logged error _ => true | _ => false end.

(** Modelled from the spec: [responseBuilder.errorResponse], whose module is
    not part of the sources at hand; the spec gives the error envelope as
    [{status, data}]. *)
Definition errorResponse (status data : Value) : Value :=
  VObj [("status", status); ("data", data)].

(** The socket fields the listeners and the sweep use. *)
Record WebSocket : Type := {
  isAlive : bool;
  terminated : bool
}.

(** How a block of statements ends. *)
Inductive Completion (A : Type) : Type :=
| Normal (a : A)
| Returned            (* an early [return] out of the listener *)
| Thrown (e : Exn).
Arguments Normal {A} a.
Arguments Returned {A}.
Arguments Thrown {A} e.

(** ** The listeners *)

Section Listeners.

(** The per-connection rate limiter lives in [./ws]; the listener only
    calls [atCapacity()], which answers and may update the limiter. *)
Context {RateLimiter : Type}.
Variable atCapacity : RateLimiter -> bool * RateLimiter.

(** The table of [./statusCodes], read as [statusCodes['Name']]. *)
Variable statusCodes : string -> Value.

(** The user and database controllers.  They work on state of their own
    ([World]); of the connection they are taken to touch the key-validation
    flag only ([userController.validateKey] is handed [conn] to mark it),
    which they are given and give back. *)
Context {World : Type}.
Variable collaborators : Call -> bool -> World -> Outcome * bool * World.

Record Connection : Type := {
  keyValidated : bool;
  rateLimiter : RateLimiter
}.

(** What a listener can read and write: its socket [ws], the registered
    connection [conn] of its closure (the forgot-password listener has
    none and leaves it alone) and the collaborators' state. *)
Record State : Type := {
  ws : WebSocket;
  conn : Connection;
  world : World
}.

Definition M (A : Type) : Type := State -> Completion A * State * list Event.

Definition ret {A} (a : A) : M A := fun s => (Normal a, s, []).

Definition bind {A B} (m : M A) (k : A -> M B) : M B :=
  fun s =>
    match m s with
    | (Normal a, s1, es1) =>
        let '(c, s2, es2) := k a s1 in (c, s2, (es1 ++ es2)%list)
    | (Returned, s1, es1) => (Returned, s1, es1)
    | (Thrown e, s1, es1) => (Thrown e, s1, es1)
    end.

Local Notation "x <- m ;; k" := (bind m (fun x => k))
  (at level 61, m at next level, right associativity).
Local Notation "m ;; k" := (bind m (fun _ => k))
  (at level 61, right associativity).

Definition return_ {A} : M A := fun s => (Returned, s, []).
Definition throw {A} (e : Exn) : M A := fun s => (Thrown e, s, []).
Definition emit (e : Event) : M unit := fun s => (Normal tt, s, [e]).

(** [try { body } catch (e) { handler }] *)
Definition try_catch {A} (body : M A) (handler : Exn -> M A) : M A :=
  fun s =>
    match body s with
    | (Thrown e, s1, es1) =>
        let '(c, s2, es2) := handler e s1 in (c, s2, (es1 ++ es2)%list)
    | r => r
    end.

Definition logger (level : Level) (text : string) : M unit :=
  emit (Logged level text).

Definition ws_send (data : Outbound) : M unit := emit (Sent data).

Definition ws_terminate : M unit :=
  fun s =>
    (Normal tt,
     {| ws := {| isAlive := isAlive (ws s); terminated := true |};
        conn := conn s; world := world s |},
     [Terminate]).

Definition set_isAlive (b : bool) : M unit :=
  fun s =>
    (Normal tt,
     {| ws := {| isAlive := b; terminated := terminated (ws s) |};
        conn := conn s; world := world s |},
     []).

(** [const heartbeat = function (ws) { ws.isAlive = true }] *)
Definition heartbeat : M unit := set_isAlive true.

Definition get (v : Value) (k : string) : M Value :=
  match member v k with
  | inl e => throw e
  | inr x => ret x
  end.

(** [`${v}`] in a block. *)
Definition template (v : Value) : M string :=
  match ToString v with
  | inl e => throw e
  | inr text => ret text
  end.

Definition JSON_parse (msg : Message) : M Value :=
  emit Parsing ;;
  match msg_parse msg with
  | Malformed => throw SyntaxError
  | Parses request => ret request
  end.

(** [conn.rateLimiter.atCapacity()] *)
Definition rateLimiter_atCapacity : M bool :=
  fun s =>
    let (full, limiter) := atCapacity (rateLimiter (conn s)) in
    (Normal full,
     {| ws := ws s;
        conn := {| keyValidated := keyValidated (conn s);
                   rateLimiter := limiter |};
        world := world s |},
     [Consulted full]).

Definition get_keyValidated : M bool :=
  fun s => (Normal (keyValidated (conn s)), s, []).

(** [await c]: the call runs; a rejected promise is thrown at the
    [await]. *)
Definition await (c : Call) : M Value :=
  fun s =>
    let '(outcome, validated, w) :=
      collaborators c (keyValidated (conn s)) (world s) in
    let s' := {| ws := ws s;
                 conn := {| keyValidated := validated;
                            rateLimiter := rateLimiter (conn s) |};
                 world := w |} in
    match outcome with
    | Resolves response => (Normal response, s', [Invoked c])
    | Rejects reason => (Thrown (Rejection reason), s', [Invoked c])
    end.

(** The [switch] of the key-validated branch, lines 158-226. *)
Definition dispatch_validated (action params : Value) : M Value :=
  if is_string action "ValidateKey" then
    ret (errorResponse (statusCodes "Bad Request")
                       (VStr "Already validated key"))
  else if is_string action "UpdateUser" then
    username <- get params "username" ;;
    currentPasswordToken <- get params "currentPasswordToken" ;;
    passwordToken <- get params "passwordToken" ;;
    passwordSalts <- get params "passwordSalts" ;;
    email <- get params "email" ;;
    profile <- get params "profile" ;;
    passwordBasedBackup <- get params "passwordBasedBackup" ;;
    await (updateUser username currentPasswordToken passwordToken
                      passwordSalts email profile passwordBasedBackup)
  else if is_string action "DeleteUser" then
    await deleteUserController
  else if is_string action "OpenDatabase" then
    dbNameHash <- get params "dbNameHash" ;;
    newDatabaseParams <- get params "newDatabaseParams" ;;
    reopenAtSeqNo <- get params "reopenAtSeqNo" ;;
    await (openDatabase dbNameHash newDatabaseParams reopenAtSeqNo)
  else if is_string action "Insert" || is_string action "Update"
          || is_string action "Delete" then
    dbNameHash <- get params "dbNameHash" ;;
    dbId <- get params "dbId" ;;
    itemKey <- get params "itemKey" ;;
    encryptedItem <- get params "encryptedItem" ;;
    await (doCommand action dbNameHash dbId itemKey encryptedItem)
  else if is_string action "BatchTransaction" then
    dbNameHash <- get params "dbNameHash" ;;
    dbId <- get params "dbId" ;;
    operations <- get params "operations" ;;
    await (batchTransaction dbNameHash dbId operations)
  else if is_string action "Bundle" then
    dbId <- get params "dbId" ;;
    seqNo <- get params "seqNo" ;;
    bundle <- get params "bundle" ;;
    await (bundleTransactionLog dbId seqNo bundle)
  else if is_string action "GetPasswordSalts" then
    await getPasswordSaltsByUserId
  else
    logger error "Received unknown action over WebSocket" ;;
    text <- template action ;;
    ws_send (Plain ("Received unkown action " ++ text)) ;;
    return_.

(** Lines 137-227: what runs when the limiter is not at capacity. *)
Definition dispatch (action params : Value) : M Value :=
  if is_string action "SignOut" then
    sessionId <- get params "sessionId" ;;
    await (signOut sessionId)
  else
    validated <- get_keyValidated ;;
    if negb validated then
      if is_string action "ValidateKey" then
        validationMessage <- get params "validationMessage" ;;
        await (validateKey validationMessage)
      else
        ret (errorResponse (statusCodes "Unauthorized")
                           (VStr "Key not validated"))
    else
      dispatch_validated action params.

(** Lines 131-245: the response is made, by the limiter's answer [full] or
    by dispatch, and sent. *)
Definition respond (requestId action params : Value) (full : bool) : M unit :=
  response <-
    (if full then
       ret (errorResponse (statusCodes "Too Many Requests")
                          (VObj [("retryDelay", VNum "1000")]))
     else dispatch action params) ;;
  let responseMsg :=
    JSON_stringify (VObj [("requestId", requestId);
                          ("response", response);
                          ("route", action)]) in
  _ <- get response "status" ;;
  logger info "Sent response over WebSocket" ;;
  ws_send responseMsg.

(** Lines 120-245: what the listener does with the three fields read off
    the parsed request. *)
Definition handle_request (requestId action params : Value) : M unit :=
  (if is_string action "Pong" then heartbeat ;; return_ else ret tt) ;;
  logger info "Received WebSocket request" ;;
  full <- rateLimiter_atCapacity ;;
  respond requestId action params full.

(** The [try] block of the main-channel listener, lines 107-245. *)
Definition on_message_body (msg : Message) : M unit :=
  (if too_large FOUR_HUNDRED_KB msg then
     logger warn "Received large message" ;;
     ws_send (Plain "Message is too large") ;;
     return_
   else ret tt) ;;
  request <- JSON_parse msg ;;
  requestId <- get request "requestId" ;;
  action <- get request "action" ;;
  params <- get request "params" ;;
  handle_request requestId action params.

(** [ws.on('message', async (msg) => { ... })] of the main channel,
    lines 100-253. *)
Definition on_message (msg : Message) : M unit :=
  set_isAlive true ;;
  try_catch (on_message_body msg)
    (fun e => logger error "Error in Websocket handling message").

(** The [try] block of the forgot-password listener, lines 300-341. *)
Definition on_forgot_password_message_body (msg : Message) : M unit :=
  (if too_large FIVE_KB msg then
     logger warn "Received large message over forgot-password" ;;
     ws_send (Plain "Message is too large") ;;
     return_
   else ret tt) ;;
  request <- JSON_parse msg ;;
  action <- get request "action" ;;
  params <- get request "params" ;;
  if is_string action "ForgotPassword" then
    token <- get params "forgotPasswordToken" ;;
    forgotPasswordResponse <- await (forgotPassword token) ;;
    status <- get forgotPasswordResponse "status" ;;
    if negb (strict_eq status (statusCodes "Success")) then
      data <- get forgotPasswordResponse "data" ;;
      ws_send (JSON_stringify (VObj [("route", VStr "Error");
                                     ("status", status);
                                     ("data", data)])) ;;
      ws_terminate
    else
      logger info "Forgot password finished" ;;
      ws_send (JSON_stringify
                 (VObj [("route", VStr "SuccessfullyForgotPassword");
                        ("response", forgotPasswordResponse)])) ;;
      ws_terminate
  else
    throw (Error "Received unknown message").

(** [ws.on('message', async (msg) => { ... })] of the forgot-password
    channel, lines 298-346. *)
Definition on_forgot_password_message (msg : Message) : M unit :=
  try_catch (on_forgot_password_message_body msg)
    (fun e => logger error "Error in forgot-password Websocket").

(** [wss.on('forgot-password', async (ws, req) => { ... })], lines
    259-348.  The result tells whether the ['message'] listener was
    installed. *)
Definition on_forgot_password : M bool :=
  set_isAlive true ;;
  logger info "Opened forgot-password WebSocket" ;;
  forgotPasswordTokenResult <- await generateForgotPasswordToken ;;
  status <- get forgotPasswordTokenResult "status" ;;
  if negb (strict_eq status (statusCodes "Success")) then
    data <- get forgotPasswordTokenResult "data" ;;
    ws_send (JSON_stringify (VObj [("route", VStr "Error");
                                   ("status", status);
                                   ("data", data)])) ;;
    ws_terminate ;;
    ret false
  else
    data <- get forgotPasswordTokenResult "data" ;;
    user <- get data "user" ;;
    app <- get data "app" ;;
    admin <- get data "admin" ;;
    forgotPasswordToken <- get data "forgotPasswordToken" ;;
    encryptedForgotPasswordToken <- get data "encryptedForgotPasswordToken" ;;
    userId <- get user "user-id" ;;
    adminId <- get admin "admin-id" ;;
    dhKeySalt <- get user "diffie-hellman-key-salt" ;;
    ws_send (JSON_stringify
               (VObj [("route", VStr "ReceiveEncryptedToken");
                      ("dhKeySalt", dhKeySalt);
                      ("encryptedForgotPasswordToken",
                       encryptedForgotPasswordToken)])) ;;
    ret true.

(** The body of [ping], lines 351-356, for one socket of [wss.clients]. *)
Definition ping : M unit :=
  fun s =>
    if negb (isAlive (ws s)) then ws_terminate s
    else (set_isAlive false ;;
          ws_send (JSON_stringify (VObj [("route", VStr "Ping")]))) s.

(** [wss.clients.forEach(ws => ...)]: the sweep over the sockets of the
    server, each with its own state. *)
Definition ping_all (clients : list State) : list (State * list Event) :=
  map (fun s => let '(_, s', es) := ping s in (s', es)) clients.

(** What happens to one socket: a frame arrives, or the sweep passes. *)
Inductive Stimulus : Type :=
| Frame (msg : Message)
| Sweep.

Definition react (listener : Message -> M unit) (i : Stimulus) : M unit :=
  match i with
  | Frame msg => listener msg
  | Sweep => ping
  end.

(** A socket's history: the stimuli are handled one after the other
    (a listener that throws or returns early ends only its own turn). *)
Fixpoint run (listener : Message -> M unit) (inputs : list Stimulus)
         (s : State) : State * list Event :=
  match inputs with
  | [] => (s, [])
  | i :: rest =>
      let '(_, s1, es1) := react listener i s in
      let '(s2, es2) := run listener rest s1 in
      (s2, (es1 ++ es2)%list)
  end.

End Listeners.

(** The three fields the listeners read off a frame. *)
Record Request : Type := {
  requestId : Value;
  action : Value;
  params : Value
}.

(** The request a listener gets out of a frame: the frame passes the size
    check, [JSON.parse] succeeds, and the three property reads succeed
    (the parsed value is neither [null] nor [undefined]). *)
Definition read_request (limit : Z) (msg : Message) : option Request :=
  if too_large limit msg then None
  else
    match msg_parse msg with
    | Malformed => None
    | Parses request =>
        match member request "requestId", member request "action",
              member request "params" with
        | inr i, inr a, inr p =>
            Some {| requestId := i; action := a; params := p |}
        | _, _, _ => None
        end
    end.

(** The action names of the main channel, as the interface lists them. *)
Definition recognized_actions : list string :=
  ["Pong"; "SignOut"; "ValidateKey"; "UpdateUser"; "DeleteUser";
   "OpenDatabase"; "Insert"; "Update"; "Delete"; "BatchTransaction";
   "Bundle"; "GetPasswordSalts"].

Definition recognized (action : Value) : bool :=
  existsb (is_string action) recognized_actions.

(** The [setInterval] period of [ping], in milliseconds. *)
Definition PING_INTERVAL : Z := 30000.

(** With the timer started at time 0, the sweeps run at the positive
    multiples of the period; [sweeps_between t0 t1] counts those in
    [(t0, t1]]. *)
Definition sweeps_between (t0 t1 : Z) : Z :=
  (t1 / PING_INTERVAL - t0 / PING_INTERVAL)%Z.

(** The frame a response travels in, line 230. *)
Definition response_frame (rq : Request) (response : Value) : Outbound :=
  JSON_stringify (VObj [("requestId", requestId rq);
                        ("response", response);
                        ("route", action rq)]).

(** ** What a block of statements leaves alone *)

Section Predicates.

Context {RateLimiter World : Type}.
Local Abbreviation St := (@State RateLimiter World).

(** The state once the listener has set [ws.isAlive = true]. *)
Definition revive (s : St) : St :=
  {| ws := {| isAlive := true; terminated := terminated (ws s) |};
     conn := conn s; world := world s |}.

(** The state once the sweep has set [ws.isAlive = false]. *)
Definition probe (s : St) : St :=
  {| ws := {| isAlive := false; terminated := terminated (ws s) |};
     conn := conn s; world := world s |}.

(** The state once [ws.terminate()] has run. *)
Definition ended (s : St) : St :=
  {| ws := {| isAlive := isAlive (ws s); terminated := true |};
     conn := conn s; world := world s |}.

(** The state once the limiter has been consulted and is [limiter]. *)
Definition consulted (limiter : RateLimiter) (s : St) : St :=
  {| ws := ws s;
     conn := {| keyValidated := keyValidated (conn s);
                rateLimiter := limiter |};
     world := world s |}.

(** The state a block leaves and the events it has emitted. *)
Definition state_after {A : Type} (r : Completion A * St * list Event) : St :=
  snd (fst r).
Definition events_of {A : Type} (r : Completion A * St * list Event)
  : list Event :=
  snd r.

Definition limiter_of (s : St) : RateLimiter := rateLimiter (conn s).
Definition closed (s : St) : bool := terminated (ws s).
Definition liveness (s : St) : bool := isAlive (ws s).

(** Two ways a later state can relate to an earlier one: the part [f] is
    the same; the flag [q], once up, is still up. *)
Definition keeps {X : Type} (f : St -> X) : St -> St -> Prop :=
  fun s s' => f s' = f s.

Definition once (q : St -> bool) : St -> St -> Prop :=
  fun s s' => q s = true -> q s' = true.

(** However [m] ends, the state it leaves is related by [R] to the one it
    found, and it has emitted no event that [p] singles out. *)
Definition respects {A : Type} (R : St -> St -> Prop) (p : Event -> bool)
           (m : @M RateLimiter World A) : Prop :=
  forall s c s' es, m s = (c, s', es) -> R s s' /\ filter p es = [].

(** A socket that no frame revives and that [n] more sweeps will find:
    with none to come it is terminated already; with one to come it is
    terminated or has its liveness flag down. *)
Definition doomed (n : nat) (s : St) : Prop :=
  match n with
  | 0 => closed s = true
  | 1 => closed s = true \/ liveness s = false
  | _ => True
  end.

Definition no_event (e : Event) : bool := false.

(** [m] has sent nothing unless it ended in an early [return]. *)
Definition quiet {A : Type} (m : @M RateLimiter World A) : Prop :=
  forall s c s' es,
    m s = (c, s', es) -> c <> Returned -> filter is_sent es = [].

(** [m] has sent nothing when it throws. *)
Definition quiet_if_thrown {A : Type} (m : @M RateLimiter World A) : Prop :=
  forall s e s' es, m s = (Thrown e, s', es) -> filter is_sent es = [].

End Predicates.

(** The events of a request that is read, counted and answered with
    [response]. *)
Definition answered (full : bool) (rq : Request) (response : Value)
  : list Event :=
  [Parsing;
   Logged info "Received WebSocket request";
   Consulted full;
   Logged info "Sent response over WebSocket";
   Sent (response_frame rq response)].

(** The probe the sweep sends. *)
Definition Ping : Outbound := JSON_stringify (VObj [("route", VStr "Ping")]).

Definition is_sweep (i : Stimulus) : bool :=
  match i with Sweep => true | Frame _ => false end.

(** The number of sweeps in a history. *)
Definition sweeps (inputs : list Stimulus) : nat :=
  List.length (filter is_sweep inputs).

(** A history in which no sweep follows another without a frame in
    between; [fresh] tells whether a frame has arrived since the last
    sweep. *)
Fixpoint regular (fresh : bool) (inputs : list Stimulus) : bool :=
  match inputs with
  | [] => true
  | Frame _ :: rest => regular true rest
  | Sweep :: rest => fresh && regular false rest
  end.

(** ** A concrete server, to run the listeners on *)

Module Sample.

(** Modelled from the spec: the rate limiter of [./ws], which is not part
    of the sources at hand.  The spec gives it a budget of [capacity]
    requests per window, has every consulted message consume one unit
    whatever its outcome, and has the message after the budget is used up
    find the limiter at capacity.  One window is modelled. *)
Record Budget : Type := {
  capacity : nat;
  consumed : nat
}.

Definition atCapacity (b : Budget) : bool * Budget :=
  (Nat.leb (capacity b) (consumed b),
   {| capacity := capacity b; consumed := S (consumed b) |}).

(** Modelled from the spec: the table of [./statusCodes], with the names
    the spec lists and the HTTP numbers that go by these names. *)
Definition statusCodes (name : string) : Value :=
  if name =? "Success" then VNum "200"
  else if name =? "Bad Request" then VNum "400"
  else if name =? "Unauthorized" then VNum "401"
  else if name =? "Too Many Requests" then VNum "429"
  else if name =? "Internal Server Error" then VNum "500"
  else VUndefined.

(** Controllers that answer every call with success, and mark the
    connection on [validateKey]. *)
Definition obliging (c : Call) (validated : bool) (w : unit)
  : Outcome * bool * unit :=
  (Resolves (VObj [("status", VNum "200")]),
   match c with validateKey _ => true | _ => validated end,
   w).

(** Controllers whose every call fails. *)
Definition failing (c : Call) (validated : bool) (w : unit)
  : Outcome * bool * unit :=
  (Rejects (VStr "store unreachable"), validated, w).

(** A socket just opened, its connection with [used] units of a budget
    of [cap] consumed. *)
Definition opened (validated : bool) (cap used : nat) : State :=
  {| ws := {| isAlive := true; terminated := false |};
     conn := {| keyValidated := validated;
                rateLimiter := {| capacity := cap; consumed := used |} |};
     world := tt |}.

(** A text frame of [n] characters. *)
Definition text (n : Z) (p : ParseResult) : Message :=
  {| msg_length := Some n; msg_byteLength := None; msg_parse := p |}.

(** The request [{"requestId":"r1","action":name,"params":{}}]. *)
Definition request (name : string) : Request :=
  {| requestId := VStr "r1"; action := VStr name; params := VObj [] |}.

(** The text frame that carries it. *)
Definition frame (name : string) : Message :=
  text (42 + Z.of_nat (String.length name))
       (Parses (VObj [("requestId", VStr "r1");
                      ("action", VStr name);
                      ("params", VObj [])])).

(** A frame that is not JSON. *)
Definition garbage : Message := text 7 Malformed.

(** A well-formed [Insert] request one character above the main
    channel's ceiling. *)
Definition huge : Message :=
  text (FOUR_HUNDRED_KB + 1)
       (Parses (VObj [("requestId", VStr "r1");
                      ("action", VStr "Insert");
                      ("params", VObj [("encryptedItem", VStr "...")])])).

(** A well-formed [ForgotPassword] request one character above the
    forgot-password channel's ceiling. *)
Definition large : Message :=
  text (FIVE_KB + 1)
       (Parses (VObj [("action", VStr "ForgotPassword");
                      ("params",
                       VObj [("forgotPasswordToken", VStr "...")])])).

(** The two listeners of this server. *)
Definition listen : Message -> M unit :=
  on_message atCapacity statusCodes obliging.

Definition listen_forgot_password : Message -> @M Budget unit unit :=
  on_forgot_password_message statusCodes obliging.

End Sample.

(** ** The rest of [start] *)






Section Start.

(** [await setup.init(userbaseConfig)]: it returns, or it rejects. *)
Variable setup_init : Value -> option Exn.


End Start.

(** What the internal server does that can be seen from outside. *)
Inductive InternalEffect : Type :=
| Noted (level : Level) (text : string)
| Pushed (transaction userId : Value)      (* connections.push was called *)
| Replied (status : option Value) (body : option string).

Definition push_failed : string :=
  "Error pushing internal transaction to connected clients".

Section Internal_server.

(** The registry of [./ws]: [connections.push(transaction, userId)] works
    on it and may throw. *)
Context {Registry : Type}.
Variable push : Value -> Value -> Registry -> option Exn * Registry.
Variable statusCodes : string -> Value.

(** The handler of [POST /internal/notify-transaction], lines 455-474, on
    the parsed body of the request.  [res.end()] is [Replied None None]. *)
Definition notify_transaction (body : Value) (registry : Registry)
  : (Exn + unit) * Registry * list InternalEffect :=
  match member body "transaction" with
  | inl e => (inl e, registry, [])
  | inr transaction =>
      match member body "userId" with
      | inl e => (inl e, registry, [])
      | inr userId =>
          let failure :=
            [Noted error push_failed;
             Replied (Some (statusCodes "Internal Server Error"))
                     (Some push_failed)] in
          match member transaction "database-id",
                member transaction "seq-no" with
          | inr _, inr _ =>
              let received :=
                [Noted info "Received internal notification to update db";
                 Pushed transaction userId] in
              match push transaction userId registry with
              | (None, registry') =>
                  (inr tt, registry', (received ++ [Replied None None])%list)
              | (Some _, registry') =>
                  (inr tt, registry', (received ++ failure)%list)
              end
          | _, _ => (inr tt, registry, failure)
          end
      end
  end.

End Internal_server.

Definition is_replied (e : InternalEffect) : bool :=
  match e with Replied _ _ => true | _ => false end.
Definition is_pushed (e : InternalEffect) : bool :=
  match e with Pushed _ _ => true | _ => false end.

Section Opening.

Context {RateLimiter World : Type}.

(** [connections.register(userId, ws, clientId, adminId, appId)]: the new
    connection, or nothing when the registry refuses. *)
Variable register :
  Value -> Value -> Value -> Value -> World ->
  option (@Connection RateLimiter) * World.

(** [userController.getValidationMessage(userPublicKey)] *)
Variable getValidationMessage : Value -> Exn + Value.

Definition connections_register (userId clientId adminId appId : Value)
  : @M RateLimiter World (option (@Connection RateLimiter)) :=
  fun s =>
    let (registered, w) := register userId clientId adminId appId (world s) in
    (Normal registered,
     {| ws := ws s;
        conn := match registered with Some c => c | None => conn s end;
        world := w |},
     []).

Definition call_getValidationMessage (userPublicKey : Value)
  : @M RateLimiter World Value :=
  match getValidationMessage userPublicKey with
  | inl e => throw e
  | inr v => ret v
  end.

(** [wss.on('connection', (ws, req, res) => { ... })], lines 72-99 and
    254, on [res.locals] and [req.query].  The result tells whether the
    listeners were installed. *)
Definition on_connection (locals query : Value) : @M RateLimiter World bool :=
  bind (set_isAlive true) (fun _ =>
  bind (get locals "user") (fun user =>
  bind (get user "user-id") (fun userId =>
  bind (get user "public-key") (fun userPublicKey =>
  bind (get locals "admin") (fun admin =>
  bind (get admin "admin-id") (fun adminId =>
  bind (get locals "app") (fun app =>
  bind (get app "app-id") (fun appId =>
  bind (get query "clientId") (fun clientId =>
  bind (connections_register userId clientId adminId appId) (fun registered =>
  match registered with
  | None => ret false
  | Some _ =>
      bind (call_getValidationMessage userPublicKey) (fun message =>
      bind (get message "validationMessage") (fun validationMessage =>
      bind (get message "encryptedValidationMessage")
           (fun encryptedValidationMessage =>
      bind (logger info "Sending Connection over WebSocket") (fun _ =>
      bind (get user "encryption-key-salt") (fun encryptionKeySalt =>
      bind (get user "diffie-hellman-key-salt") (fun dhKeySalt =>
      bind (get user "hmac-key-salt") (fun hmacKeySalt =>
      bind (ws_send
              (JSON_stringify
                 (VObj [("route", VStr "Connection");
                        ("keySalts",
                         VObj [("encryptionKeySalt", encryptionKeySalt);
                               ("dhKeySalt", dhKeySalt);
                               ("hmacKeySalt", hmacKeySalt)]);
                        ("encryptedValidationMessage",
                         encryptedValidationMessage)])))
           (fun _ => ret true))))))))
  end)))))))))).

(** A socket on which no ['message'] listener was installed: frames are
    dropped. *)
Definition unheard (msg : Message) : @M RateLimiter World unit := ret tt.

(** [m] has emitted at most [n], [r] or [t] of the events that [p] singles
    out, as it ends normally, in an early [return], or by throwing. *)
Definition tally {A : Type} (p : Event -> bool) (n r t : nat)
           (m : @M RateLimiter World A) : Prop :=
  forall s c s' es,
    m s = (c, s', es) ->
    List.length (filter p es)
    <= match c with Normal _ => n | Returned => r | Thrown _ => t end.

(** No relation between the states: only the events are of interest. *)
Definition whatever : @State RateLimiter World -> @State RateLimiter World -> Prop :=
  keeps (fun _ => tt).

End Opening.

(** The controller calls that are open to a connection whose key is not
    validated. *)
Definition is_open_call (c : Call) : bool :=
  match c with
  | signOut _ | validateKey _ => true
  | _ => false
  end.

(** A controller call that is not. *)
Definition is_gated_invoked (e : Event) : bool :=
  match e with Invoked c => negb (is_open_call c) | _ => false end.

(** [undefined] or [null]. *)
Definition nullish (v : Value) : bool :=
  match v with VUndefined | VNull => true | _ => false end.

(** The actions of [rq] whose handling reads a field of [params]: all but
    DeleteUser and GetPasswordSalts among those dispatched in the state
    [validated]. *)
Definition reads_params (validated : bool) (action : Value) : bool :=
  is_string action "SignOut"
  || (if validated
      then existsb (is_string action)
                   ["UpdateUser"; "OpenDatabase"; "Insert"; "Update";
                    "Delete"; "BatchTransaction"; "Bundle"]
      else is_string action "ValidateKey").

(** More fixtures. *)
Module Fixtures.

(** Controllers that resolve with nothing. *)
Definition absent_minded (c : Call) (validated : bool) (w : unit)
  : Outcome * bool * unit :=
  (Resolves VUndefined, validated, w).

(** Controllers that turn every request down. *)
Definition refusing (c : Call) (validated : bool) (w : unit)
  : Outcome * bool * unit :=
  (Resolves (VObj [("status", VNum "401"); ("data", VStr "nope")]),
   validated, w).

(** Controllers that issue a forgot-password token. *)
Definition issuing (c : Call) (validated : bool) (w : unit)
  : Outcome * bool * unit :=
  (Resolves
     (VObj [("status", VNum "200");
            ("data",
             VObj [("user", VObj [("user-id", VStr "u1");
                                  ("diffie-hellman-key-salt", VStr "s2")]);
                   ("app", VObj [("app-id", VStr "app1")]);
                   ("admin", VObj [("admin-id", VStr "a1")]);
                   ("forgotPasswordToken", VStr "plain");
                   ("encryptedForgotPasswordToken", VStr "sealed")])]),
   validated, w).

(** A registry that counts the transactions pushed, and throws on one
    without a user. *)
Definition push (transaction userId : Value) (pushed : nat)
  : option Exn * nat :=
  match userId with
  | VUndefined => (Some (Error "no such user"), pushed)
  | _ => (None, S pushed)
  end.

(** A registry that lets one connection in per client: it refuses the
    client named "taken". *)
Definition register (userId clientId adminId appId : Value) (w : unit)
  : option (@Connection Sample.Budget) * unit :=
  if is_string clientId "taken" then (None, w)
  else (Some {| keyValidated := false;
                rateLimiter := {| Sample.capacity := 5;
                                  Sample.consumed := 0 |} |}, w).

Definition getValidationMessage (userPublicKey : Value) : Exn + Value :=
  inr (VObj [("validationMessage", VStr "plain");
             ("encryptedValidationMessage", VStr "sealed")]).

(** [res.locals] after [authenticateUser]. *)
Definition locals : Value :=
  VObj [("user", VObj [("user-id", VStr "u1");
                       ("public-key", VStr "pk");
                       ("encryption-key-salt", VStr "s1");
                       ("diffie-hellman-key-salt", VStr "s2");
                       ("hmac-key-salt", VStr "s3")]);
        ("admin", VObj [("admin-id", VStr "a1")]);
        ("app", VObj [("app-id", VStr "app1"); ("app-name", VStr "demo")])].

Definition query (clientId : string) : Value :=
  VObj [("clientId", VStr clientId)].

(** A frame with an arbitrary parsed value. *)
Definition json (v : Value) : Message := Sample.text 10 (Parses v).

(** A request with the given fields. *)
Definition asking (name : string) (p : Value) : Message :=
  Sample.text 60 (Parses (VObj [("requestId", VStr "r1");
                                ("action", VStr name);
                                ("params", p)])).

End Fixtures.

(** ** Composition lemmas *)

#[global] Instance keeps_PreOrder {RateLimiter World X : Type}
  (f : @State RateLimiter World -> X) : PreOrder (keeps f).
Proof.
  split.
  - intros s. reflexivity.
  - intros s1 s2 s3 H12 H23. unfold keeps in *. congruence.
Qed.

#[global] Instance once_PreOrder {RateLimiter World : Type}
  (q : @State RateLimiter World -> bool) : PreOrder (once q).
Proof.
  split.
  - intros s H. exact H.
  - intros s1 s2 s3 H12 H23 H. apply H23, H12, H.
Qed.

Section Respects.

Context {RateLimiter World : Type}.
Local Abbreviation St := (@State RateLimiter World).
Local Abbreviation Block := (@M RateLimiter World).

Variable R : St -> St -> Prop.
Context `{!PreOrder R}.
Variable p : Event -> bool.

Lemma respects_ret {A} (a : A) : respects R p (ret a : Block A).
Proof. intros s c s' es H. inversion H; subst. split; reflexivity. Qed.

Lemma respects_return_ {A} : respects R p (return_ : Block A).
Proof. intros s c s' es H. inversion H; subst. split; reflexivity. Qed.

Lemma respects_throw {A} (e : Exn) : respects R p (throw e : Block A).
Proof. intros s c s' es H. inversion H; subst. split; reflexivity. Qed.

Lemma respects_bind {A B} (m : Block A) (k : A -> Block B) :
  respects R p m -> (forall a, respects R p (k a)) -> respects R p (bind m k).
Proof.
  intros Hm Hk s c s' es H. unfold bind in H.
  destruct (m s) as [[c1 s1] es1] eqn:E1.
  destruct (Hm _ _ _ _ E1) as [F1 P1].
  destruct c1 as [a| |e].
  - destruct (k a s1) as [[c2 s2] es2] eqn:E2.
    destruct (Hk _ _ _ _ _ E2) as [F2 P2].
    inversion H; subst. rewrite filter_app, P1, P2.
    split; [etransitivity; eassumption | reflexivity].
  - inversion H; subst. auto.
  - inversion H; subst. auto.
Qed.

Lemma respects_try_catch {A} (body : Block A) (handler : Exn -> Block A) :
  respects R p body -> (forall e, respects R p (handler e)) ->
  respects R p (try_catch body handler).
Proof.
  intros Hm Hk s c s' es H. unfold try_catch in H.
  destruct (body s) as [[c1 s1] es1] eqn:E1.
  destruct (Hm _ _ _ _ E1) as [F1 P1].
  destruct c1 as [a| |e].
  - inversion H; subst. auto.
  - inversion H; subst. auto.
  - destruct (handler e s1) as [[c2 s2] es2] eqn:E2.
    destruct (Hk _ _ _ _ _ E2) as [F2 P2].
    inversion H; subst. rewrite filter_app, P1, P2.
    split; [etransitivity; eassumption | reflexivity].
Qed.

Lemma respects_if {A} (b : bool) (m1 m2 : Block A) :
  respects R p m1 -> respects R p m2 -> respects R p (if b then m1 else m2).
Proof. destruct b; auto. Qed.

Lemma respects_emit (e : Event) : p e = false -> respects R p (emit e).
Proof.
  intros Hp s c s' es H. inversion H; subst. simpl. rewrite Hp.
  split; reflexivity.
Qed.

Lemma respects_get (v : Value) (k : string) : respects R p (get v k).
Proof.
  unfold get. destruct (member v k); [apply respects_throw | apply respects_ret].
Qed.

Lemma respects_bind_template {B} (v : Value) (k : string -> Block B) :
  (forall text, ToString v = inr text -> respects R p (k text)) ->
  respects R p (bind (template v) k).
Proof.
  intros Hk s c s' es H. unfold bind, template in H.
  destruct (ToString v) as [e | text] eqn:E; cbn in H.
  - inversion H; subst. split; reflexivity.
  - destruct (k text s) as [[c2 s2] es2] eqn:E2. inversion H; subst.
    apply (Hk _ eq_refl _ _ _ _ E2).
Qed.

Lemma respects_JSON_parse (msg : Message) :
  p Parsing = false -> respects R p (JSON_parse msg).
Proof.
  intros Hp. unfold JSON_parse. apply respects_bind.
  - apply respects_emit, Hp.
  - intros _.
    destruct (msg_parse msg); [apply respects_throw | apply respects_ret].
Qed.

Lemma respects_get_keyValidated : respects R p get_keyValidated.
Proof. intros s c s' es H. inversion H; subst. split; reflexivity. Qed.

Lemma respects_set_isAlive (b : bool) :
  (forall s, R s {| ws := {| isAlive := b; terminated := terminated (ws s) |};
                    conn := conn s; world := world s |}) ->
  respects R p (set_isAlive b).
Proof. intros Hf s c s' es H. inversion H; subst. auto. Qed.

Lemma respects_ws_terminate :
  (forall s, R s (ended s)) -> p Terminate = false ->
  respects R p ws_terminate.
Proof.
  intros Hf Hp s c s' es H. inversion H; subst. simpl. rewrite Hp.
  split; [apply Hf | reflexivity].
Qed.

Lemma respects_await
      (collaborators : Call -> bool -> World -> Outcome * bool * World)
      (c : Call) :
  (forall s v w, R s {| ws := ws s;
                        conn := {| keyValidated := v;
                                   rateLimiter := rateLimiter (conn s) |};
                        world := w |}) ->
  p (Invoked c) = false ->
  respects R p (await collaborators c).
Proof.
  intros Hf Hp s c0 s' es H. unfold await in H.
  destruct (collaborators c (keyValidated (conn s)) (world s)) as [[o v] w].
  destruct o; inversion H; subst; simpl; rewrite Hp; auto.
Qed.

Lemma respects_atCapacity (atCapacity : RateLimiter -> bool * RateLimiter) :
  (forall s l, R s (consulted l s)) ->
  (forall b, p (Consulted b) = false) ->
  respects R p (rateLimiter_atCapacity atCapacity).
Proof.
  intros Hf Hp s c s' es H. unfold rateLimiter_atCapacity in H.
  destruct (atCapacity (rateLimiter (conn s))) as [full l].
  inversion H; subst. simpl. rewrite Hp. split; [apply (Hf s l) | reflexivity].
Qed.

End Respects.

Ltac side_condition :=
  solve [intros; first [reflexivity | hnf; intros; first [assumption | reflexivity]]].

Ltac preorder_goal :=
  match goal with |- PreOrder _ => typeclasses eauto end.

Ltac respects_step :=
  unfold logger, ws_send, heartbeat; cbv zeta;
  first
    [ apply respects_get; try preorder_goal
    | apply respects_get_keyValidated; try preorder_goal
    | apply respects_JSON_parse; try preorder_goal; reflexivity
    | apply respects_emit; try preorder_goal; reflexivity
    | apply respects_set_isAlive; try preorder_goal; side_condition
    | apply respects_ws_terminate; try preorder_goal; side_condition
    | apply respects_await; try preorder_goal; side_condition
    | apply respects_atCapacity; try preorder_goal; side_condition
    | apply respects_ret; try preorder_goal
    | apply respects_return_; try preorder_goal
    | apply respects_throw; try preorder_goal
    | apply respects_bind_template; try preorder_goal; intros ? ?
    | apply respects_if; try preorder_goal
    | apply respects_try_catch; try preorder_goal; [| intro]
    | apply respects_bind; try preorder_goal; [| intro] ].

Ltac respects_blocks := repeat respects_step.

Section Quiet.

Context {RateLimiter World : Type}.
Local Abbreviation Block := (@M RateLimiter World).

Lemma quiet_ret {A} (a : A) : quiet (ret a : Block A).
Proof. intros s c s' es H _. inversion H; subst. reflexivity. Qed.

Lemma quiet_return_ {A} : quiet (return_ : Block A).
Proof. intros s c s' es H Hc. inversion H; subst. reflexivity. Qed.

Lemma quiet_throw {A} (e : Exn) : quiet (throw e : Block A).
Proof. intros s c s' es H _. inversion H; subst. reflexivity. Qed.

Lemma quiet_bind {A B} (m : Block A) (k : A -> Block B) :
  quiet m -> (forall a, quiet (k a)) -> quiet (bind m k).
Proof.
  intros Hm Hk s c s' es H Hc. unfold bind in H.
  destruct (m s) as [[c1 s1] es1] eqn:E1.
  destruct c1 as [a| |e].
  - destruct (k a s1) as [[c2 s2] es2] eqn:E2.
    inversion H; subst. rewrite filter_app.
    rewrite (Hm _ _ _ _ E1) by discriminate.
    rewrite (Hk _ _ _ _ _ E2) by assumption. reflexivity.
  - inversion H; subst. contradiction.
  - inversion H; subst. apply (Hm _ _ _ _ E1). discriminate.
Qed.

Lemma quiet_if {A} (b : bool) (m1 m2 : Block A) :
  quiet m1 -> quiet m2 -> quiet (if b then m1 else m2).
Proof. destruct b; auto. Qed.

Lemma quiet_emit (e : Event) : is_sent e = false -> quiet (emit e : Block unit).
Proof.
  intros He s c s' es H _. inversion H; subst. simpl. rewrite He. reflexivity.
Qed.

Lemma quiet_get (v : Value) (k : string) : quiet (get v k : Block Value).
Proof.
  unfold get. destruct (member v k); [apply quiet_throw | apply quiet_ret].
Qed.

Lemma quiet_bind_template {B} (v : Value) (k : string -> Block B) :
  (forall text, quiet (k text)) -> quiet (bind (template v) k).
Proof.
  intros Hk s c s' es H Hc. unfold bind, template in H.
  destruct (ToString v) as [e | text]; cbn in H.
  - inversion H; subst. reflexivity.
  - destruct (k text s) as [[c2 s2] es2] eqn:E2. inversion H; subst.
    apply (Hk _ _ _ _ _ E2 Hc).
Qed.

Lemma quiet_JSON_parse (msg : Message) : quiet (JSON_parse msg : Block Value).
Proof.
  unfold JSON_parse. apply quiet_bind.
  - apply quiet_emit. reflexivity.
  - intros _. destruct (msg_parse msg); [apply quiet_throw | apply quiet_ret].
Qed.

Lemma quiet_get_keyValidated : quiet (get_keyValidated : Block bool).
Proof. intros s c s' es H _. inversion H; subst. reflexivity. Qed.

Lemma quiet_set_isAlive (b : bool) : quiet (set_isAlive b : Block unit).
Proof. intros s c s' es H _. inversion H; subst. reflexivity. Qed.

Lemma quiet_await
      (collaborators : Call -> bool -> World -> Outcome * bool * World)
      (c : Call) :
  quiet (await collaborators c : Block Value).
Proof.
  intros s c0 s' es H _. unfold await in H.
  destruct (collaborators c (keyValidated (conn s)) (world s)) as [[o v] w].
  destruct o; inversion H; subst; reflexivity.
Qed.

Lemma quiet_atCapacity (atCapacity : RateLimiter -> bool * RateLimiter) :
  quiet (rateLimiter_atCapacity atCapacity : Block bool).
Proof.
  intros s c s' es H _. unfold rateLimiter_atCapacity in H.
  destruct (atCapacity (rateLimiter (conn s))) as [full l].
  inversion H; subst. reflexivity.
Qed.

(** [return ws.send(data)] *)
Lemma quiet_send_return {A} (data : Outbound) :
  quiet (bind (ws_send data) (fun _ => return_) : Block A).
Proof. intros s c s' es H Hc. inversion H; subst. contradiction. Qed.

Lemma quiet_if_thrown_bind {A B} (m : Block A) (k : A -> Block B) :
  quiet m -> (forall a, quiet_if_thrown (k a)) -> quiet_if_thrown (bind m k).
Proof.
  intros Hm Hk s e s' es H. unfold bind in H.
  destruct (m s) as [[c1 s1] es1] eqn:E1.
  destruct c1 as [a| |e1].
  - destruct (k a s1) as [[c2 s2] es2] eqn:E2.
    inversion H; subst. rewrite filter_app.
    rewrite (Hm _ _ _ _ E1) by discriminate.
    rewrite (Hk _ _ _ _ _ E2). reflexivity.
  - inversion H.
  - inversion H; subst. apply (Hm _ _ _ _ E1). discriminate.
Qed.

Lemma quiet_if_thrown_send (data : Outbound) :
  quiet_if_thrown (ws_send data : Block unit).
Proof. intros s e s' es H. inversion H. Qed.

End Quiet.

Ltac quiet_step :=
  unfold logger, heartbeat; cbv zeta;
  first
    [ apply quiet_get
    | apply quiet_get_keyValidated
    | apply quiet_JSON_parse
    | apply quiet_emit; reflexivity
    | apply quiet_set_isAlive
    | apply quiet_await
    | apply quiet_atCapacity
    | apply quiet_ret
    | apply quiet_return_
    | apply quiet_throw
    | apply quiet_bind_template; intro
    | apply quiet_if
    | apply quiet_send_return
    | apply quiet_bind; [| intro] ].

Ltac quiet_blocks := repeat quiet_step.

(** ** The blocks of the listeners *)

Section Blocks.

Context {RateLimiter World : Type}.
Variable atCapacity : RateLimiter -> bool * RateLimiter.
Variable statusCodes : string -> Value.
Variable collaborators : Call -> bool -> World -> Outcome * bool * World.
Local Abbreviation St := (@State RateLimiter World).

Lemma dispatch_quiet (action params : Value) :
  quiet (RateLimiter := RateLimiter)
        (dispatch statusCodes collaborators action params).
Proof. unfold dispatch, dispatch_validated. quiet_blocks. Qed.

Lemma respond_quiet_if_thrown (requestId action params : Value)
      (full : bool) :
  quiet_if_thrown (RateLimiter := RateLimiter)
    (respond statusCodes collaborators requestId action params full).
Proof.
  unfold respond.
  apply quiet_if_thrown_bind;
    [apply quiet_if; [quiet_blocks | apply dispatch_quiet] | intros response].
  cbv zeta.
  apply quiet_if_thrown_bind; [quiet_blocks | intros _].
  apply quiet_if_thrown_bind; [quiet_blocks | intros _].
  apply quiet_if_thrown_send.
Qed.

Lemma handle_request_quiet_if_thrown (requestId action params : Value) :
  quiet_if_thrown
    (handle_request atCapacity statusCodes collaborators
                    requestId action params).
Proof.
  unfold handle_request.
  apply quiet_if_thrown_bind; [quiet_blocks | intros _].
  apply quiet_if_thrown_bind; [quiet_blocks | intros _].
  apply quiet_if_thrown_bind; [quiet_blocks | intros full].
  apply respond_quiet_if_thrown.
Qed.

Lemma on_message_body_quiet_if_thrown (msg : Message) :
  quiet_if_thrown
    (on_message_body atCapacity statusCodes collaborators msg).
Proof.
  unfold on_message_body.
  apply quiet_if_thrown_bind; [quiet_blocks | intros _].
  apply quiet_if_thrown_bind; [quiet_blocks | intros request].
  apply quiet_if_thrown_bind; [quiet_blocks | intros requestId].
  apply quiet_if_thrown_bind; [quiet_blocks | intros action].
  apply quiet_if_thrown_bind; [quiet_blocks | intros params].
  apply handle_request_quiet_if_thrown.
Qed.

(** Nothing in the main-channel listener terminates the socket. *)
Lemma on_message_body_keeps_open (msg : Message) :
  respects (keeps closed) is_terminate
           (on_message_body atCapacity statusCodes collaborators msg).
Proof.
  unfold on_message_body, handle_request, respond, dispatch,
    dispatch_validated.
  respects_blocks.
Qed.

Lemma on_message_keeps_open (msg : Message) :
  respects (keeps closed) is_terminate
           (on_message atCapacity statusCodes collaborators msg).
Proof.
  unfold on_message.
  apply respects_bind; try preorder_goal; [respects_blocks | intros _].
  apply respects_try_catch; try preorder_goal;
    [apply on_message_body_keeps_open | intro; respects_blocks].
Qed.

(** Once the liveness flag is up, the rest of the listener leaves it up. *)
Lemma on_message_body_stays_alive (msg : Message) :
  respects (once liveness) no_event
           (on_message_body atCapacity statusCodes collaborators msg).
Proof.
  unfold on_message_body, handle_request, respond, dispatch,
    dispatch_validated.
  respects_blocks.
Qed.

(** Apart from the one consultation, the listener leaves the limiter
    alone. *)
Lemma dispatch_keeps_limiter (action params : Value) :
  respects (keeps (limiter_of : St -> RateLimiter)) is_consulted
           (dispatch statusCodes collaborators action params).
Proof. unfold dispatch, dispatch_validated. respects_blocks. Qed.

Lemma respond_keeps_limiter (requestId action params : Value) (full : bool) :
  respects (keeps (limiter_of : St -> RateLimiter)) is_consulted
           (respond statusCodes collaborators requestId action params full).
Proof. unfold respond, dispatch, dispatch_validated. respects_blocks. Qed.

(** The forgot-password listener never touches the liveness flag, never
    reopens a socket, and has no limiter to consult. *)
Lemma on_forgot_password_message_keeps_liveness (msg : Message) :
  respects (keeps (liveness : St -> bool)) no_event
           (on_forgot_password_message statusCodes collaborators msg).
Proof.
  unfold on_forgot_password_message, on_forgot_password_message_body.
  respects_blocks.
Qed.

Lemma on_forgot_password_message_stays_closed (msg : Message) :
  respects (once (closed : St -> bool)) no_event
           (on_forgot_password_message statusCodes collaborators msg).
Proof.
  unfold on_forgot_password_message, on_forgot_password_message_body.
  respects_blocks.
Qed.

Lemma on_forgot_password_message_keeps_limiter (msg : Message) :
  respects (keeps (limiter_of : St -> RateLimiter)) is_consulted
           (on_forgot_password_message statusCodes collaborators msg).
Proof.
  unfold on_forgot_password_message, on_forgot_password_message_body.
  respects_blocks.
Qed.

End Blocks.

(** ** Reading a request off a frame *)

Lemma read_request_inv (limit : Z) (msg : Message) (rq : Request) :
  read_request limit msg = Some rq ->
  too_large limit msg = false /\
  exists request,
    msg_parse msg = Parses request /\
    member request "requestId" = inr (requestId rq) /\
    member request "action" = inr (action rq) /\
    member request "params" = inr (params rq).
Proof.
  unfold read_request. intros H.
  destruct (too_large limit msg); [discriminate |].
  destruct (msg_parse msg) as [| request]; [discriminate |].
  destruct (member request "requestId") as [| i] eqn:Ei; [discriminate |].
  destruct (member request "action") as [| a] eqn:Ea; [discriminate |].
  destruct (member request "params") as [| p] eqn:Ep; [discriminate |].
  inversion H; subst. simpl. split; [reflexivity |].
  exists request. auto.
Qed.

Lemma is_string_eq (v : Value) (lit : string) :
  is_string v lit = true -> v = VStr lit.
Proof.
  destruct v; simpl; try discriminate.
  intros H. apply String.eqb_eq in H. congruence.
Qed.

Section Main_channel.

Context {RateLimiter World : Type}.
Variable atCapacity : RateLimiter -> bool * RateLimiter.
Variable statusCodes : string -> Value.
Variable collaborators : Call -> bool -> World -> Outcome * bool * World.
Local Abbreviation St := (@State RateLimiter World).

Local Abbreviation listener := (on_message atCapacity statusCodes collaborators).
Local Abbreviation handler :=
  (handle_request atCapacity statusCodes collaborators).
Local Abbreviation catch_and_log :=
  (fun _ : Exn => logger error "Error in Websocket handling message").

(** A frame that is read reaches [handle_request] with its three fields,
    after the liveness flag is set and [JSON.parse] has run. *)
Lemma on_message_read (s : St) (msg : Message) (rq : Request) :
  read_request FOUR_HUNDRED_KB msg = Some rq ->
  listener msg s =
    let '(c, s', es) :=
      try_catch (handler (requestId rq) (action rq) (params rq))
                catch_and_log (revive s) in
    (c, s', Parsing :: es).
Proof.
  intros H. destruct (read_request_inv _ _ _ H)
    as (Hsize & request & Hparse & Hi & Ha & Hp).
  unfold on_message, on_message_body, JSON_parse, try_catch, bind, get.
  rewrite Hsize; cbn. rewrite Hparse; cbn. rewrite Hi; cbn.
  rewrite Ha; cbn. rewrite Hp; cbn.
  fold (revive s).
  destruct (handler (requestId rq) (action rq) (params rq) (revive s))
    as [[[a| |e] s1] es1]; reflexivity.
Qed.

(** C5: a main-channel frame above 400 KB is answered with the plain
    string 'Message is too large' and nothing else happens to it: it is
    not parsed, the limiter is not consulted, no controller is called,
    and apart from the liveness flag the state is as before. *)
Theorem oversized_frame_rejected (s : St) (msg : Message) :
  too_large FOUR_HUNDRED_KB msg = true ->
  listener msg s =
    (Returned, revive s,
     [Logged warn "Received large message";
      Sent (Plain "Message is too large")])
  /\ limiter_of (revive s) = limiter_of s.
Proof.
  intros H. split; [| reflexivity].
  unfold on_message, on_message_body, try_catch, bind. rewrite H.
  reflexivity.
Qed.

(** C3: a frame whose action is Pong sets the liveness flag and ends the
    listener there: the limiter is not consulted and keeps its budget,
    nothing is sent, whatever the key-validation state. *)
Theorem pong_bypasses_limiter (s : St) (msg : Message) (rq : Request) :
  read_request FOUR_HUNDRED_KB msg = Some rq ->
  is_string (action rq) "Pong" = true ->
  listener msg s = (Returned, revive s, [Parsing])
  /\ liveness (revive s) = true
  /\ conn (revive s) = conn s.
Proof.
  intros Hread Hpong. split; [| split; reflexivity].
  rewrite (on_message_read _ _ _ Hread).
  unfold handle_request, try_catch, bind. rewrite Hpong. reflexivity.
Qed.

(** C4: a counted request that finds the limiter at capacity is answered
    with Too Many Requests and retryDelay 1000, and no controller is
    called. *)
Theorem at_capacity_too_many_requests
        (s : St) (msg : Message) (rq : Request) :
  read_request FOUR_HUNDRED_KB msg = Some rq ->
  is_string (action rq) "Pong" = false ->
  fst (atCapacity (limiter_of s)) = true ->
  let events :=
    answered true rq
             (errorResponse (statusCodes "Too Many Requests")
                            (VObj [("retryDelay", VNum "1000")])) in
  listener msg s =
    (Normal tt, consulted (snd (atCapacity (limiter_of s))) (revive s),
     events)
  /\ filter is_invoked events = [].
Proof.
  intros Hread Hpong Hfull. split; [| reflexivity].
  rewrite (on_message_read _ _ _ Hread).
  unfold handle_request, respond, try_catch, bind, rateLimiter_atCapacity.
  rewrite Hpong. simpl.
  change (rateLimiter (conn s)) with (limiter_of s).
  destruct (atCapacity (limiter_of s)) as [full limiter].
  simpl in Hfull. subst full. reflexivity.
Qed.

(** The listener on a counted request that finds the limiter with budget
    left: what is left to run is [dispatch]. *)
Lemma on_message_admitted (s : St) (msg : Message) (rq : Request) :
  read_request FOUR_HUNDRED_KB msg = Some rq ->
  is_string (action rq) "Pong" = false ->
  fst (atCapacity (limiter_of s)) = false ->
  listener msg s =
    let '(c, s', es) :=
      try_catch
        (respond statusCodes collaborators
                 (requestId rq) (action rq) (params rq) false)
        catch_and_log
        (consulted (snd (atCapacity (limiter_of s))) (revive s)) in
    (c, s',
     Parsing :: Logged info "Received WebSocket request"
       :: Consulted false :: es).
Proof.
  intros Hread Hpong Hfull.
  rewrite (on_message_read _ _ _ Hread).
  unfold handle_request, try_catch, bind, rateLimiter_atCapacity.
  rewrite Hpong. cbn.
  change (rateLimiter (conn s)) with (limiter_of s).
  destruct (atCapacity (limiter_of s)) as [full limiter].
  simpl in Hfull. subst full. cbn.
  change {| ws := {| isAlive := true; terminated := terminated (ws s) |};
            conn := {| keyValidated := keyValidated (conn s);
                       rateLimiter := limiter |};
            world := world s |}
    with (consulted limiter (revive s)).
  destruct (respond statusCodes collaborators (requestId rq) (action rq)
                    (params rq) false (consulted limiter (revive s)))
    as [[[a| |e] s1] es1]; reflexivity.
Qed.

(** C1, as amended: a request that is read, is not a Pong and finds the
    limiter with budget left is, on an unvalidated connection and for any
    action other than ValidateKey and SignOut, answered with Unauthorized
    ('Key not validated') without any controller being called; on a
    validated connection a ValidateKey is answered with Bad Request
    ('Already validated key'). *)
Theorem key_validation_gate (s : St) (msg : Message) (rq : Request) :
  read_request FOUR_HUNDRED_KB msg = Some rq ->
  is_string (action rq) "Pong" = false ->
  fst (atCapacity (limiter_of s)) = false ->
  let s' := consulted (snd (atCapacity (limiter_of s))) (revive s) in
  (keyValidated (conn s) = false ->
   is_string (action rq) "ValidateKey" = false ->
   is_string (action rq) "SignOut" = false ->
   let events :=
     answered false rq
              (errorResponse (statusCodes "Unauthorized")
                             (VStr "Key not validated")) in
   listener msg s = (Normal tt, s', events)
   /\ filter is_invoked events = [])
  /\
  (keyValidated (conn s) = true ->
   is_string (action rq) "ValidateKey" = true ->
   listener msg s =
     (Normal tt, s',
      answered false rq
               (errorResponse (statusCodes "Bad Request")
                              (VStr "Already validated key")))).
Proof.
  intros Hread Hpong Hfull s'. split.
  - intros Hkey Hvalidate Hsignout events. split; [| reflexivity].
    rewrite (on_message_admitted _ _ _ Hread Hpong Hfull).
    unfold respond, dispatch, try_catch, bind, get_keyValidated.
    rewrite Hsignout. cbn. rewrite Hkey. cbn. rewrite Hvalidate.
    reflexivity.
  - intros Hkey Hvalidate.
    rewrite (on_message_admitted _ _ _ Hread Hpong Hfull).
    assert (Hsignout : is_string (action rq) "SignOut" = false)
      by (rewrite (is_string_eq _ _ Hvalidate); reflexivity).
    unfold respond, dispatch, dispatch_validated, try_catch, bind,
      get_keyValidated.
    rewrite Hsignout. cbn. rewrite Hkey. cbn. rewrite Hvalidate.
    reflexivity.
Qed.

Lemma unrecognized (a : Value) :
  recognized a = false ->
  forall name, In name recognized_actions -> is_string a name = false.
Proof.
  unfold recognized. intros H name Hin.
  destruct (is_string a name) eqn:E; [| reflexivity].
  rewrite <- H. symmetry. apply existsb_exists. exists name. auto.
Qed.

(** C9: a request dispatched on a validated connection whose action is not
    one of the recognized names is logged as an error and answered with the
    plain text 'Received unkown action <name>', where <name> is the action
    as the template literal prints it (the name itself when the action is
    a string); the socket is not terminated. *)
Theorem unknown_action_diagnosed
        (s : St) (msg : Message) (rq : Request) (name : string) :
  read_request FOUR_HUNDRED_KB msg = Some rq ->
  ToString (action rq) = inr name ->
  recognized (action rq) = false ->
  fst (atCapacity (limiter_of s)) = false ->
  keyValidated (conn s) = true ->
  let s' := consulted (snd (atCapacity (limiter_of s))) (revive s) in
  listener msg s =
    (Returned, s',
     [Parsing;
      Logged info "Received WebSocket request";
      Consulted false;
      Logged error "Received unknown action over WebSocket";
      Sent (Plain ("Received unkown action " ++ name))])
  /\ closed s' = closed s.
Proof.
  intros Hread Hname Hunknown Hfull Hkey s'. split; [| reflexivity].
  pose proof (unrecognized _ Hunknown) as Hnot.
  assert (Hpong : is_string (action rq) "Pong" = false)
    by (apply Hnot; simpl; tauto).
  rewrite (on_message_admitted _ _ _ Hread Hpong Hfull).
  unfold respond, dispatch, dispatch_validated, try_catch, bind,
    get_keyValidated.
  rewrite (Hnot "SignOut") by (simpl; tauto). cbn. rewrite Hkey. cbn.
  rewrite (Hnot "ValidateKey"), (Hnot "UpdateUser"), (Hnot "DeleteUser"),
    (Hnot "OpenDatabase"), (Hnot "Insert"), (Hnot "Update"), (Hnot "Delete"),
    (Hnot "BatchTransaction"), (Hnot "Bundle"), (Hnot "GetPasswordSalts")
    by (simpl; tauto).
  unfold template. rewrite Hname. reflexivity.
Qed.

(** An action that the template literal cannot print (an object with a
    toString key of its own) is logged twice and not answered. *)
Lemma unknown_action_unprintable
      (s : St) (msg : Message) (rq : Request) (e : Exn) :
  read_request FOUR_HUNDRED_KB msg = Some rq ->
  ToString (action rq) = inl e ->
  fst (atCapacity (limiter_of s)) = false ->
  keyValidated (conn s) = true ->
  listener msg s =
    (Normal tt, consulted (snd (atCapacity (limiter_of s))) (revive s),
     [Parsing;
      Logged info "Received WebSocket request";
      Consulted false;
      Logged error "Received unknown action over WebSocket";
      Logged error "Error in Websocket handling message"]).
Proof.
  intros Hread Hname Hfull Hkey.
  assert (Hnot : forall lit, is_string (action rq) lit = false)
    by (intros lit; destruct (action rq); try reflexivity; discriminate).
  rewrite (on_message_admitted _ _ _ Hread (Hnot _) Hfull).
  unfold respond, dispatch, dispatch_validated, try_catch, bind,
    get_keyValidated.
  rewrite !Hnot. cbn. rewrite Hkey. cbn.
  unfold template. rewrite Hname. reflexivity.
Qed.

(** A counted request consults the limiter exactly once. *)
Lemma handle_request_consults (s0 : St) (i a p : Value) c s1 es :
  is_string a "Pong" = false ->
  handler i a p s0 = (c, s1, es) ->
  limiter_of s1 = snd (atCapacity (limiter_of s0)) /\
  filter is_consulted es = [Consulted (fst (atCapacity (limiter_of s0)))].
Proof.
  intros Hpong H.
  unfold handle_request, bind, rateLimiter_atCapacity in H.
  rewrite Hpong in H. cbn in H.
  change (rateLimiter (conn s0)) with (limiter_of s0) in H.
  destruct (atCapacity (limiter_of s0)) as [full limiter]. cbn in H.
  match type of H with
  | context [respond ?sc ?co ?i ?a ?p ?f ?st] =>
      destruct (respond sc co i a p f st) as [[c2 s2] es2] eqn:E
  end.
  destruct (respond_keeps_limiter statusCodes collaborators _ _ _ _ _ _ _ _ E)
    as [Hl He].
  inversion H; subst. cbn. rewrite He. split; [exact Hl | reflexivity].
Qed.

(** C2, as amended: a frame that is read and is not a Pong consults the
    limiter exactly once, whatever the listener goes on to do with it (an
    unknown action, a controller that throws); a frame that is not read
    (oversized, malformed, or parsed to null) and a Pong do not consult the
    limiter, which stays as it was. *)
Theorem limiter_consulted_once_per_counted_request (s : St) (msg : Message) :
  let '(_, s', events) := listener msg s in
  match read_request FOUR_HUNDRED_KB msg with
  | Some rq =>
      if is_string (action rq) "Pong"
      then limiter_of s' = limiter_of s /\ filter is_consulted events = []
      else limiter_of s' = snd (atCapacity (limiter_of s)) /\
           filter is_consulted events =
             [Consulted (fst (atCapacity (limiter_of s)))]
  | None => limiter_of s' = limiter_of s /\ filter is_consulted events = []
  end.
Proof.
  destruct (read_request FOUR_HUNDRED_KB msg) as [rq |] eqn:Hread.
  - rewrite (on_message_read _ _ _ Hread).
    destruct (is_string (action rq) "Pong") eqn:Hpong.
    + unfold handle_request, try_catch, bind. rewrite Hpong. cbn. auto.
    + unfold try_catch.
      destruct (handler (requestId rq) (action rq) (params rq) (revive s))
        as [[c s1] es] eqn:E.
      destruct (handle_request_consults _ _ _ _ _ _ _ Hpong E) as [Hl He].
      destruct c; cbn; rewrite ?filter_app, He; auto.
  - unfold read_request in Hread.
    unfold on_message, on_message_body, JSON_parse, try_catch, bind, get.
    destruct (too_large FOUR_HUNDRED_KB msg); cbn; [auto |].
    destruct (msg_parse msg) as [| request]; cbn; [auto |].
    destruct request; cbn in *; try discriminate; auto.
Qed.

(** C7: when the [try] block of the listener throws (a controller call
    that rejects, or any other exception), the exception is caught and
    logged, nothing is sent for the request, and the socket is not
    terminated. *)
Theorem internal_error_logged_not_answered
        (s : St) (msg : Message) (e : Exn) (s1 : St) (es : list Event) :
  on_message_body atCapacity statusCodes collaborators msg (revive s)
    = (Thrown e, s1, es) ->
  let events :=
    (es ++ [Logged error "Error in Websocket handling message"])%list in
  listener msg s = (Normal tt, s1, events)
  /\ filter is_sent events = []
  /\ filter is_terminate events = []
  /\ closed s1 = closed s.
Proof.
  intros H events. subst events.
  destruct (on_message_body_keeps_open atCapacity statusCodes collaborators
              _ _ _ _ _ H) as [Hopen Hterm].
  pose proof (on_message_body_quiet_if_thrown atCapacity statusCodes
                collaborators _ _ _ _ _ H) as Hquiet.
  repeat split.
  - unfold on_message, try_catch, bind, set_isAlive. cbn.
    fold (revive s). rewrite H. reflexivity.
  - rewrite filter_app, Hquiet. reflexivity.
  - rewrite filter_app, Hterm. reflexivity.
  - exact Hopen.
Qed.

End Main_channel.

(** ** The heartbeat *)

Section Heartbeat.

Context {RateLimiter World : Type}.
Variable atCapacity : RateLimiter -> bool * RateLimiter.
Variable statusCodes : string -> Value.
Variable collaborators : Call -> bool -> World -> Outcome * bool * World.
Local Abbreviation St := (@State RateLimiter World).
Local Abbreviation listener := (on_message atCapacity statusCodes collaborators).
Local Abbreviation forgot_password_listener :=
  (on_forgot_password_message (RateLimiter := RateLimiter)
                              statusCodes collaborators).

Lemma one_sweep_per_period (t : Z) :
  sweeps_between t (t + PING_INTERVAL) = 1%Z.
Proof.
  unfold sweeps_between, PING_INTERVAL.
  replace (t + 30000)%Z with (t + 1 * 30000)%Z by lia.
  rewrite Z.div_add by lia. lia.
Qed.

Lemma two_sweeps_in_two_periods (t : Z) :
  sweeps_between t (t + 2 * PING_INTERVAL) = 2%Z.
Proof.
  unfold sweeps_between, PING_INTERVAL.
  rewrite Z.div_add by lia. lia.
Qed.

Lemma ping_cases (s : St) :
  ping s = if liveness s then (Normal tt, probe s, [Sent Ping])
           else (Normal tt, ended s, [Terminate]).
Proof. unfold ping, liveness. destruct (isAlive (ws s)); reflexivity. Qed.

(** A frame on the main channel leaves the socket as open as it was, with
    the liveness flag up. *)
Lemma on_message_revives (s : St) (msg : Message) c s' es :
  listener msg s = (c, s', es) ->
  closed s' = closed s /\ liveness s' = true.
Proof.
  intros H. split.
  - apply (on_message_keeps_open atCapacity statusCodes collaborators
             _ _ _ _ _ H).
  - unfold on_message in H. unfold bind at 1 in H. cbn in H.
    fold (revive s) in H.
    match type of H with
    | context [try_catch ?body ?handler (revive s)] =>
        destruct (try_catch body handler (revive s)) as [[c2 s2] es2] eqn:E;
        assert (Hr : respects (once liveness) no_event (try_catch body handler))
    end.
    { apply respects_try_catch; try preorder_goal;
        [apply on_message_body_stays_alive | intro; respects_blocks]. }
    inversion H; subst.
    apply (Hr _ _ _ _ E). reflexivity.
Qed.

Lemma regular_traffic_keeps_open (inputs : list Stimulus) :
  forall s : St,
    closed s = false ->
    regular (liveness s) inputs = true ->
    closed (fst (run listener inputs s)) = false.
Proof.
  induction inputs as [| i rest IH]; intros s Hopen Hreg.
  - exact Hopen.
  - destruct i as [msg |]; cbn [run react regular] in *.
    + destruct (listener msg s) as [[c s1] es1] eqn:E.
      destruct (on_message_revives _ _ _ _ _ E) as [Hc Hl].
      specialize (IH s1). rewrite Hl, Hc in IH.
      destruct (run listener rest s1) as [s2 es2]. cbn in *.
      apply IH; assumption.
    + apply andb_prop in Hreg. destruct Hreg as [Hl Hreg].
      rewrite ping_cases, Hl.
      specialize (IH (probe s) Hopen Hreg).
      destruct (run listener rest (probe s)) as [s2 es2]. exact IH.
Qed.

(** C8: the sweep, which runs once in every period of 30000 ms,
    terminates every socket whose liveness flag is down, and on every other
    one lowers the flag and sends a Ping.  So two sweeps with no frame in
    between leave a socket terminated, while a main-channel socket on which
    a frame arrives between any two sweeps is never terminated by the
    sweep. *)
Theorem heartbeat_sweep :
  (forall t : Z, sweeps_between t (t + PING_INTERVAL) = 1%Z)
  /\ (forall clients : list St,
      ping_all clients =
        map (fun s => if liveness s then (probe s, [Sent Ping])
                      else (ended s, [Terminate]))
            clients)
  /\ (forall s : St, closed (fst (run listener [Sweep; Sweep] s)) = true)
  /\ (forall (s : St) (msg : Message),
         closed s = false ->
         closed (fst (run listener [Frame msg; Sweep] s)) = false)
  /\ (forall (inputs : list Stimulus) (s : St),
         closed s = false ->
         regular (liveness s) inputs = true ->
         closed (fst (run listener inputs s)) = false).
Proof.
  repeat split.
  - apply one_sweep_per_period.
  - intros clients. unfold ping_all. apply map_ext. intros s.
    rewrite ping_cases. destruct (liveness s); reflexivity.
  - intros [[[|] ended_already] connection w]; reflexivity.
  - intros s msg Hopen.
    apply regular_traffic_keeps_open; [exact Hopen | reflexivity].
  - intros inputs s. apply regular_traffic_keeps_open.
Qed.

Lemma doomed_frame (n : nat) (s : St) (msg : Message) c s' es :
  forgot_password_listener msg s = (c, s', es) ->
  doomed n s -> doomed n s'.
Proof.
  intros H.
  destruct (on_forgot_password_message_keeps_liveness
              statusCodes collaborators _ _ _ _ _ H) as [Hl _].
  destruct (on_forgot_password_message_stays_closed
              statusCodes collaborators _ _ _ _ _ H) as [Hc _].
  unfold keeps in Hl. unfold once in Hc.
  destruct n as [| [| n]]; cbn; [exact Hc | | trivial].
  intros [Hd | Hd]; [left; auto | right; congruence].
Qed.

Lemma doomed_sweep (n : nat) (s : St) :
  doomed n s ->
  doomed (pred n) (if liveness s then probe s else ended s).
Proof.
  destruct n as [| [| [| n]]]; cbn; destruct (liveness s) eqn:Hl; cbn; auto.
  intros [Hd | Hd]; [exact Hd | discriminate].
Qed.

Lemma doomed_run (inputs : list Stimulus) :
  forall (n : nat) (s : St),
    doomed n s -> n <= sweeps inputs ->
    closed (fst (run forgot_password_listener inputs s)) = true.
Proof.
  induction inputs as [| i rest IH]; intros n s Hd Hn.
  - cbn in Hn. assert (n = 0) by lia. subst n. exact Hd.
  - destruct i as [msg |]; cbn [run react].
    + destruct (forgot_password_listener msg s) as [[c s1] es1] eqn:E.
      specialize (IH n s1 (doomed_frame _ _ _ _ _ _ E Hd) Hn).
      destruct (run forgot_password_listener rest s1) as [s2 es2]. exact IH.
    + rewrite ping_cases.
      assert (Hn' : pred n <= sweeps rest)
        by (unfold sweeps in *; cbn in Hn; lia).
      pose proof (IH (pred n) _ (doomed_sweep _ _ Hd) Hn') as IH'.
      destruct (liveness s);
        match goal with
        | |- context [run ?l rest ?st] =>
            destruct (run l rest st) as [s2 es2]
        end; exact IH'.
Qed.

Lemma on_forgot_password_raises_liveness (s : St) c s' es :
  on_forgot_password statusCodes collaborators s = (c, s', es) ->
  liveness s' = true.
Proof.
  intros H. unfold on_forgot_password in H. unfold bind at 1 in H.
  cbn in H. fold (revive s) in H.
  match type of H with
  | context [bind ?m ?k (revive s)] =>
      destruct (bind m k (revive s)) as [[c2 s2] es2] eqn:E;
      assert (Hr : respects (once liveness) no_event (bind m k))
        by respects_blocks
  end.
  inversion H; subst. apply (Hr _ _ _ _ E). reflexivity.
Qed.

(** C10: the forgot-password channel raises the liveness flag when the
    socket opens and its ['message'] listener never touches the flag; so
    whatever frames arrive, the socket is terminated once the sweep has
    passed twice, and it passes twice within two periods of 30000 ms of any
    moment. *)
Theorem forgot_password_socket_short_lived :
  (forall (s : St) c s' es,
      on_forgot_password statusCodes collaborators s = (c, s', es) ->
      liveness s' = true)
  /\ (forall (msg : Message) (s : St) c s' es,
         forgot_password_listener msg s = (c, s', es) ->
         liveness s' = liveness s)
  /\ (forall (inputs : list Stimulus) (s : St),
         2 <= sweeps inputs ->
         closed (fst (run forgot_password_listener inputs s)) = true)
  /\ (forall t : Z, sweeps_between t (t + 2 * PING_INTERVAL) = 2%Z).
Proof.
  repeat split.
  - intros s c s' es. apply on_forgot_password_raises_liveness.
  - intros msg s c s' es H.
    apply (on_forgot_password_message_keeps_liveness
             statusCodes collaborators _ _ _ _ _ H).
  - intros inputs s H. apply (doomed_run inputs 2 s); [exact I | exact H].
  - apply two_sweeps_in_two_periods.
Qed.

(** C6, as amended: a protocol violation on the forgot-password channel
    does not terminate the socket.  An oversized frame is answered with the
    plain string 'Message is too large'; a malformed frame and an action
    other than ForgotPassword are logged as an error; in each case the
    socket is left as it was (it is the sweep that ends it). *)
Theorem forgot_password_violation_reported (s : St) (msg : Message) :
  (too_large FIVE_KB msg = true ->
   forgot_password_listener msg s =
     (Returned, s,
      [Logged warn "Received large message over forgot-password";
       Sent (Plain "Message is too large")]))
  /\ (too_large FIVE_KB msg = false ->
      msg_parse msg = Malformed ->
      forgot_password_listener msg s =
        (Normal tt, s,
         [Parsing; Logged error "Error in forgot-password Websocket"]))
  /\ (forall rq : Request,
         read_request FIVE_KB msg = Some rq ->
         is_string (action rq) "ForgotPassword" = false ->
         forgot_password_listener msg s =
           (Normal tt, s,
            [Parsing; Logged error "Error in forgot-password Websocket"])).
Proof.
  repeat split.
  - intros H.
    unfold on_forgot_password_message, on_forgot_password_message_body,
      try_catch, bind.
    rewrite H. reflexivity.
  - intros Hsize Hparse.
    unfold on_forgot_password_message, on_forgot_password_message_body,
      JSON_parse, try_catch, bind.
    rewrite Hsize; cbn. rewrite Hparse. reflexivity.
  - intros rq Hread Haction.
    destruct (read_request_inv _ _ _ Hread)
      as (Hsize & request & Hparse & Hi & Ha & Hp).
    unfold on_forgot_password_message, on_forgot_password_message_body,
      JSON_parse, try_catch, bind, get.
    rewrite Hsize; cbn. rewrite Hparse; cbn. rewrite Ha; cbn.
    rewrite Hp; cbn. rewrite Haction. reflexivity.
Qed.

End Heartbeat.

(** ** The listeners at work on the sample server *)

Section Runs.

Import Sample.

Local Abbreviation unauthorized :=
  (errorResponse (VNum "401") (VStr "Key not validated")).
Local Abbreviation already_validated :=
  (errorResponse (VNum "400") (VStr "Already validated key")).
Local Abbreviation too_many_requests :=
  (errorResponse (VNum "429") (VObj [("retryDelay", VNum "1000")])).

(** The handshake: an Insert before validation is refused, ValidateKey
    marks the connection, a second ValidateKey is a bad request, and Insert
    then reaches the database. *)
Example handshake :
  filter (fun e => is_sent e || is_invoked e)
         (snd (run listen
                   [Frame (frame "Insert"); Frame (frame "ValidateKey");
                    Frame (frame "ValidateKey"); Frame (frame "Insert")]
                   (opened false 5 0)))
  = [Sent (response_frame (request "Insert") unauthorized);
     Invoked (validateKey VUndefined);
     Sent (response_frame (request "ValidateKey")
                          (VObj [("status", VNum "200")]));
     Sent (response_frame (request "ValidateKey") already_validated);
     Invoked (doCommand (VStr "Insert") VUndefined VUndefined VUndefined
                        VUndefined);
     Sent (response_frame (request "Insert")
                          (VObj [("status", VNum "200")]))].
Proof. reflexivity. Qed.

(** A Pong on an unvalidated connection gets no answer at all. *)
Example pong_unvalidated :
  listen (frame "Pong") (opened false 5 0)
  = (Returned, opened false 5 0, [Parsing]).
Proof. reflexivity. Qed.

(** With the budget used up, the limiter answers before the state of the
    connection is looked at. *)
Example insert_unvalidated_at_capacity :
  listen (frame "Insert") (opened false 5 5)
  = (Normal tt, opened false 5 6,
     answered true (request "Insert") too_many_requests).
Proof. reflexivity. Qed.

Example validateKey_validated_at_capacity :
  listen (frame "ValidateKey") (opened true 5 5)
  = (Normal tt, opened true 5 6,
     answered true (request "ValidateKey") too_many_requests).
Proof. reflexivity. Qed.

(** A frame that is not JSON is caught before the limiter is reached. *)
Example garbage_not_counted :
  listen garbage (opened true 5 0)
  = (Normal tt, opened true 5 0,
     [Parsing; Logged error "Error in Websocket handling message"]).
Proof. reflexivity. Qed.

(** An unknown action on an unvalidated connection is counted, and refused
    like any other. *)
Example unknown_unvalidated_counted :
  listen (frame "Frobnicate") (opened false 5 0)
  = (Normal tt, opened false 5 1,
     answered false (request "Frobnicate") unauthorized).
Proof. reflexivity. Qed.

(** The forgot-password listener on its three kinds of violation. *)
Example forgot_password_oversized :
  listen_forgot_password large (opened false 5 0)
  = (Returned, opened false 5 0,
     [Logged warn "Received large message over forgot-password";
      Sent (Plain "Message is too large")]).
Proof. reflexivity. Qed.

Example forgot_password_garbage :
  listen_forgot_password garbage (opened false 5 0)
  = (Normal tt, opened false 5 0,
     [Parsing; Logged error "Error in forgot-password Websocket"]).
Proof. reflexivity. Qed.

Example forgot_password_other_action :
  listen_forgot_password (frame "Insert") (opened false 5 0)
  = (Normal tt, opened false 5 0,
     [Parsing; Logged error "Error in forgot-password Websocket"]).
Proof. reflexivity. Qed.

(** A well-formed ForgotPassword frame ends the socket at once. *)
Example forgot_password_served :
  listen_forgot_password
    (text 60 (Parses (VObj [("action", VStr "ForgotPassword");
                            ("params",
                             VObj [("forgotPasswordToken", VStr "t")])])))
    (opened false 5 0)
  = (Normal tt, ended (opened false 5 0),
     [Parsing;
      Invoked (forgotPassword (VStr "t"));
      Logged info "Forgot password finished";
      Sent (JSON_stringify
              (VObj [("route", VStr "SuccessfullyForgotPassword");
                     ("response", VObj [("status", VNum "200")])]));
      Terminate]).
Proof. reflexivity. Qed.

End Runs.

(** ** The theorems on the sample server *)

Section Instances.

Import Sample.

Local Abbreviation unauthorized :=
  (errorResponse (statusCodes "Unauthorized") (VStr "Key not validated")).
Local Abbreviation already_validated :=
  (errorResponse (statusCodes "Bad Request") (VStr "Already validated key")).
Local Abbreviation too_many_requests :=
  (errorResponse (statusCodes "Too Many Requests")
                 (VObj [("retryDelay", VNum "1000")])).

Ltac refute_membership H :=
  vm_compute in H;
  repeat (destruct H as [H | H]; [discriminate H |]);
  exact H.

(** C1, as stated, fails.  On an unvalidated connection a Pong, which is an
    action other than ValidateKey and SignOut, gets no Unauthorized answer
    (it gets none); an Insert that finds the limiter at capacity gets Too
    Many Requests instead; and so does a ValidateKey on a validated
    connection, instead of Bad Request. *)
Lemma unauthorized_not_for_every_action :
  ~ (forall (s : State) (msg : Message) (rq : Request),
        read_request FOUR_HUNDRED_KB msg = Some rq ->
        keyValidated (conn s) = false ->
        is_string (action rq) "ValidateKey" = false ->
        is_string (action rq) "SignOut" = false ->
        In (Sent (response_frame rq unauthorized))
           (events_of (listen msg s)))
  /\ ~ (forall (s : State) (msg : Message) (rq : Request),
           read_request FOUR_HUNDRED_KB msg = Some rq ->
           keyValidated (conn s) = false ->
           is_string (action rq) "Pong" = false ->
           is_string (action rq) "ValidateKey" = false ->
           is_string (action rq) "SignOut" = false ->
           In (Sent (response_frame rq unauthorized))
              (events_of (listen msg s)))
  /\ ~ (forall (s : State) (msg : Message) (rq : Request),
           read_request FOUR_HUNDRED_KB msg = Some rq ->
           keyValidated (conn s) = true ->
           is_string (action rq) "ValidateKey" = true ->
           In (Sent (response_frame rq already_validated))
              (events_of (listen msg s))).
Proof.
  repeat split; intros H.
  - specialize (H (opened false 5 0) (frame "Pong") (request "Pong")
                  eq_refl eq_refl eq_refl eq_refl).
    refute_membership H.
  - specialize (H (opened false 5 5) (frame "Insert") (request "Insert")
                  eq_refl eq_refl eq_refl eq_refl eq_refl).
    refute_membership H.
  - specialize (H (opened true 5 5) (frame "ValidateKey")
                  (request "ValidateKey") eq_refl eq_refl eq_refl).
    refute_membership H.
Qed.

Lemma key_validation_gate_on_sample :
  (read_request FOUR_HUNDRED_KB (frame "Insert") = Some (request "Insert")
   /\ is_string (action (request "Insert")) "Pong" = false
   /\ fst (atCapacity (limiter_of (opened false 5 0))) = false
   /\ keyValidated (conn (opened false 5 0)) = false
   /\ is_string (action (request "Insert")) "ValidateKey" = false
   /\ is_string (action (request "Insert")) "SignOut" = false
   /\ listen (frame "Insert") (opened false 5 0)
      = (Normal tt, opened false 5 1,
         answered false (request "Insert") unauthorized))
  /\
  (read_request FOUR_HUNDRED_KB (frame "ValidateKey")
     = Some (request "ValidateKey")
   /\ keyValidated (conn (opened true 5 0)) = true
   /\ is_string (action (request "ValidateKey")) "ValidateKey" = true
   /\ listen (frame "ValidateKey") (opened true 5 0)
      = (Normal tt, opened true 5 1,
         answered false (request "ValidateKey") already_validated)).
Proof.
  split.
  - repeat (split; [reflexivity |]).
    exact (proj1 (proj1 (key_validation_gate
                           atCapacity statusCodes obliging
                           (opened false 5 0) (frame "Insert")
                           (request "Insert") eq_refl eq_refl eq_refl)
                        eq_refl eq_refl eq_refl)).
  - repeat (split; [reflexivity |]).
    exact (proj2 (key_validation_gate
                    atCapacity statusCodes obliging
                    (opened true 5 0) (frame "ValidateKey")
                    (request "ValidateKey") eq_refl eq_refl eq_refl)
                 eq_refl eq_refl).
Defined.

(** C2, as stated, fails: a frame that is not JSON leaves the budget of the
    limiter as it was. *)
Lemma malformed_frame_consumes_no_budget :
  ~ (forall (s : State) (msg : Message),
        msg_parse msg = Malformed ->
        consumed (limiter_of (state_after (listen msg s)))
        = S (consumed (limiter_of s))).
Proof.
  intros H. specialize (H (opened true 5 0) garbage eq_refl).
  vm_compute in H. discriminate H.
Qed.

Lemma pong_bypasses_limiter_on_sample :
  read_request FOUR_HUNDRED_KB (frame "Pong") = Some (request "Pong")
  /\ is_string (action (request "Pong")) "Pong" = true
  /\ listen (frame "Pong")
            {| ws := {| isAlive := false; terminated := false |};
               conn := {| keyValidated := true;
                          rateLimiter := {| capacity := 5; consumed := 5 |} |};
               world := tt |}
     = (Returned, opened true 5 5, [Parsing]).
Proof.
  repeat (split; [reflexivity |]).
  exact (proj1 (pong_bypasses_limiter
                  atCapacity statusCodes obliging
                  {| ws := {| isAlive := false; terminated := false |};
                     conn := {| keyValidated := true;
                                rateLimiter :=
                                  {| capacity := 5; consumed := 5 |} |};
                     world := tt |}
                  (frame "Pong") (request "Pong") eq_refl eq_refl)).
Defined.

Lemma at_capacity_too_many_requests_on_sample :
  read_request FOUR_HUNDRED_KB (frame "Insert") = Some (request "Insert")
  /\ is_string (action (request "Insert")) "Pong" = false
  /\ fst (atCapacity (limiter_of (opened true 5 5))) = true
  /\ listen (frame "Insert") (opened true 5 5)
     = (Normal tt, opened true 5 6,
        answered true (request "Insert") too_many_requests).
Proof.
  repeat (split; [reflexivity |]).
  exact (proj1 (at_capacity_too_many_requests
                  atCapacity statusCodes obliging
                  (opened true 5 5) (frame "Insert") (request "Insert")
                  eq_refl eq_refl eq_refl)).
Defined.

Lemma oversized_frame_rejected_on_sample :
  too_large FOUR_HUNDRED_KB huge = true
  /\ listen huge (opened true 5 0)
     = (Returned, opened true 5 0,
        [Logged warn "Received large message";
         Sent (Plain "Message is too large")]).
Proof.
  split; [reflexivity |].
  exact (proj1 (oversized_frame_rejected
                  atCapacity statusCodes obliging
                  (opened true 5 0) huge eq_refl)).
Defined.

(** C6, as stated, fails: none of the three kinds of violation terminates
    the socket. *)
Lemma forgot_password_violation_leaves_socket_open :
  ~ (forall (s : State) (msg : Message),
        too_large FIVE_KB msg = true ->
        closed (state_after (listen_forgot_password msg s)) = true)
  /\ ~ (forall (s : State) (msg : Message),
           msg_parse msg = Malformed ->
           closed (state_after (listen_forgot_password msg s)) = true)
  /\ ~ (forall (s : State) (msg : Message) (rq : Request),
           read_request FIVE_KB msg = Some rq ->
           is_string (action rq) "ForgotPassword" = false ->
           closed (state_after (listen_forgot_password msg s)) = true).
Proof.
  repeat split; intros H.
  - specialize (H (opened false 5 0) large eq_refl). discriminate H.
  - specialize (H (opened false 5 0) garbage eq_refl). discriminate H.
  - specialize (H (opened false 5 0) (frame "Insert") (request "Insert")
                  eq_refl eq_refl).
    discriminate H.
Qed.

Lemma forgot_password_violation_reported_on_sample :
  (too_large FIVE_KB large = true
   /\ listen_forgot_password large (opened false 5 0)
      = (Returned, opened false 5 0,
         [Logged warn "Received large message over forgot-password";
          Sent (Plain "Message is too large")]))
  /\ (too_large FIVE_KB garbage = false
      /\ msg_parse garbage = Malformed
      /\ listen_forgot_password garbage (opened false 5 0)
         = (Normal tt, opened false 5 0,
            [Parsing; Logged error "Error in forgot-password Websocket"]))
  /\ (read_request FIVE_KB (frame "Insert") = Some (request "Insert")
      /\ is_string (action (request "Insert")) "ForgotPassword" = false
      /\ listen_forgot_password (frame "Insert") (opened false 5 0)
         = (Normal tt, opened false 5 0,
            [Parsing; Logged error "Error in forgot-password Websocket"])).
Proof.
  split; [| split].
  - split; [reflexivity |].
    exact (proj1 (forgot_password_violation_reported
                    statusCodes obliging (opened false 5 0) large)
                 eq_refl).
  - repeat (split; [reflexivity |]).
    exact (proj1 (proj2 (forgot_password_violation_reported
                           statusCodes obliging (opened false 5 0) garbage))
                 eq_refl eq_refl).
  - repeat (split; [reflexivity |]).
    exact (proj2 (proj2 (forgot_password_violation_reported
                           statusCodes obliging (opened false 5 0)
                           (frame "Insert")))
                 (request "Insert") eq_refl eq_refl).
Defined.

Lemma internal_error_logged_not_answered_on_sample :
  let thrown :=
    [Parsing;
     Logged info "Received WebSocket request";
     Consulted false;
     Invoked (doCommand (VStr "Insert") VUndefined VUndefined VUndefined
                        VUndefined)] in
  on_message_body atCapacity statusCodes failing (frame "Insert")
                  (revive (opened true 5 0))
  = (Thrown (Rejection (VStr "store unreachable")), opened true 5 1, thrown)
  /\ on_message atCapacity statusCodes failing (frame "Insert")
                 (opened true 5 0)
     = (Normal tt, opened true 5 1,
        (thrown ++ [Logged error "Error in Websocket handling message"])%list)
  /\ closed (opened true 5 1) = false.
Proof.
  intros thrown.
  pose proof (internal_error_logged_not_answered
                atCapacity statusCodes failing
                (opened true 5 0) (frame "Insert")
                (Rejection (VStr "store unreachable")) (opened true 5 1)
                thrown eq_refl) as H.
  split; [reflexivity |].
  split; [exact (proj1 H) | exact (proj2 (proj2 (proj2 H)))].
Defined.

Lemma unknown_action_diagnosed_on_sample :
  read_request FOUR_HUNDRED_KB (frame "Frobnicate")
    = Some (request "Frobnicate")
  /\ ToString (action (request "Frobnicate")) = inr "Frobnicate"
  /\ recognized (action (request "Frobnicate")) = false
  /\ fst (atCapacity (limiter_of (opened true 5 0))) = false
  /\ keyValidated (conn (opened true 5 0)) = true
  /\ listen (frame "Frobnicate") (opened true 5 0)
     = (Returned, opened true 5 1,
        [Parsing;
         Logged info "Received WebSocket request";
         Consulted false;
         Logged error "Received unknown action over WebSocket";
         Sent (Plain "Received unkown action Frobnicate")]).
Proof.
  repeat (split; [reflexivity |]).
  exact (proj1 (unknown_action_diagnosed
                  atCapacity statusCodes obliging
                  (opened true 5 0) (frame "Frobnicate")
                  (request "Frobnicate") "Frobnicate"
                  eq_refl eq_refl eq_refl eq_refl eq_refl)).
Defined.

Lemma heartbeat_sweep_on_sample :
  closed (fst (run listen [Sweep; Sweep] (opened true 5 0))) = true
  /\ (closed (opened true 5 0) = false
      /\ closed (fst (run listen [Frame (frame "Pong"); Sweep]
                          (probe (opened true 5 0)))) = false)
  /\ (regular (liveness (opened true 5 0))
              [Sweep; Frame (frame "Pong"); Sweep; Frame garbage; Sweep]
       = true
      /\ closed (fst (run listen
                          [Sweep; Frame (frame "Pong"); Sweep;
                           Frame garbage; Sweep]
                          (opened true 5 0))) = false).
Proof.
  pose proof (heartbeat_sweep atCapacity statusCodes obliging)
    as (_ & _ & Hsilent & Hframe & Hregular).
  split; [exact (Hsilent (opened true 5 0)) |].
  split.
  - split; [reflexivity |].
    exact (Hframe (probe (opened true 5 0)) (frame "Pong") eq_refl).
  - split; [reflexivity |].
    exact (Hregular [Sweep; Frame (frame "Pong"); Sweep; Frame garbage; Sweep]
                    (opened true 5 0) eq_refl eq_refl).
Defined.

Lemma forgot_password_socket_short_lived_on_sample :
  (2 <= sweeps [Frame garbage; Sweep; Frame (frame "Insert"); Sweep])
  /\ closed (fst (run listen_forgot_password
                      [Frame garbage; Sweep; Frame (frame "Insert"); Sweep]
                      (opened false 5 0))) = true
  /\ sweeps_between 12345 (12345 + 2 * PING_INTERVAL) = 2%Z.
Proof.
  pose proof (forgot_password_socket_short_lived
                (RateLimiter := Budget) statusCodes obliging)
    as (_ & _ & Hrun & Htime).
  split; [exact (le_n 2) |].
  split.
  - exact (Hrun [Frame garbage; Sweep; Frame (frame "Insert"); Sweep]
                (opened false 5 0) (le_n 2)).
  - exact (Htime 12345%Z).
Defined.

End Instances.

(** ** Counting events *)

Section Tally.

Context {RateLimiter World : Type}.
Local Abbreviation Block := (@M RateLimiter World).
Variable p : Event -> bool.
Variables n r t : nat.

Lemma tally_ret {A} (a : A) : tally p n r t (ret a : Block A).
Proof. intros s c s' es H. inversion H; subst. cbn. lia. Qed.

Lemma tally_return_ {A} : tally p n r t (return_ : Block A).
Proof. intros s c s' es H. inversion H; subst. cbn. lia. Qed.

Lemma tally_throw {A} (e : Exn) : tally p n r t (throw e : Block A).
Proof. intros s c s' es H. inversion H; subst. cbn. lia. Qed.

(** A block that has emitted nothing when it goes on normally. *)
Lemma tally_bind {A B} (m : Block A) (k : A -> Block B) :
  tally p 0 r t m -> (forall a, tally p n r t (k a)) ->
  tally p n r t (bind m k).
Proof.
  intros Hm Hk s c s' es H. unfold bind in H.
  destruct (m s) as [[c1 s1] es1] eqn:E1.
  pose proof (Hm _ _ _ _ E1) as B1.
  destruct c1 as [a| |e].
  - destruct (k a s1) as [[c2 s2] es2] eqn:E2.
    pose proof (Hk _ _ _ _ _ E2) as B2.
    inversion H; subst. rewrite filter_app, length_app. cbn in B1. lia.
  - inversion H; subst. exact B1.
  - inversion H; subst. exact B1.
Qed.

(** A block after which nothing more is emitted. *)
Lemma tally_bind_last {A B} (m : Block A) (k : A -> Block B) :
  tally p n r t m -> n <= r -> n <= t ->
  (forall a, respects whatever p (k a)) ->
  tally p n r t (bind m k).
Proof.
  intros Hm Hr Ht Hk s c s' es H. unfold bind in H.
  destruct (m s) as [[c1 s1] es1] eqn:E1.
  pose proof (Hm _ _ _ _ E1) as B1.
  destruct c1 as [a| |e].
  - destruct (k a s1) as [[c2 s2] es2] eqn:E2.
    destruct (Hk _ _ _ _ _ E2) as [_ B2].
    inversion H; subst. rewrite filter_app, length_app, B2. cbn in *.
    destruct c; lia.
  - inversion H; subst. exact B1.
  - inversion H; subst. exact B1.
Qed.

Lemma tally_if {A} (b : bool) (m1 m2 : Block A) :
  tally p n r t m1 -> tally p n r t m2 -> tally p n r t (if b then m1 else m2).
Proof. destruct b; auto. Qed.

Lemma tally_emit (e : Event) : p e = false -> tally p n r t (emit e : Block unit).
Proof.
  intros He s c s' es H. inversion H; subst. cbn. rewrite He. cbn. lia.
Qed.

Lemma tally_emit_one (e : Event) : 1 <= n -> tally p n r t (emit e : Block unit).
Proof.
  intros Hn s c s' es H. inversion H; subst. cbn. destruct (p e); cbn; lia.
Qed.

Lemma tally_get (v : Value) (k : string) : tally p n r t (get v k : Block Value).
Proof.
  unfold get. destruct (member v k); [apply tally_throw | apply tally_ret].
Qed.

Lemma tally_get_keyValidated : tally p n r t (get_keyValidated : Block bool).
Proof. intros s c s' es H. inversion H; subst. cbn. lia. Qed.

Lemma tally_set_isAlive (b : bool) : tally p n r t (set_isAlive b : Block unit).
Proof. intros s c s' es H. inversion H; subst. cbn. lia. Qed.

Lemma tally_ws_terminate :
  p Terminate = false -> tally p n r t (ws_terminate : Block unit).
Proof.
  intros He s c s' es H. inversion H; subst. cbn. rewrite He. cbn. lia.
Qed.

Lemma tally_await_other
      (collaborators : Call -> bool -> World -> Outcome * bool * World)
      (c : Call) :
  p (Invoked c) = false -> tally p n r t (await collaborators c : Block Value).
Proof.
  intros He s c0 s' es H. unfold await in H.
  destruct (collaborators c (keyValidated (conn s)) (world s)) as [[o v] w].
  destruct o; inversion H; subst; cbn; rewrite He; cbn; lia.
Qed.

Lemma tally_await
      (collaborators : Call -> bool -> World -> Outcome * bool * World)
      (c : Call) :
  1 <= n -> 1 <= t -> tally p n r t (await collaborators c : Block Value).
Proof.
  intros Hn Ht s c0 s' es H. unfold await in H.
  destruct (collaborators c (keyValidated (conn s)) (world s)) as [[o v] w].
  destruct o; inversion H; subst; cbn; destruct (p (Invoked c)); cbn; lia.
Qed.

Lemma tally_atCapacity (atCapacity : RateLimiter -> bool * RateLimiter) :
  (forall b, p (Consulted b) = false) ->
  tally p n r t (rateLimiter_atCapacity atCapacity : Block bool).
Proof.
  intros He s c s' es H. unfold rateLimiter_atCapacity in H.
  destruct (atCapacity (rateLimiter (conn s))) as [full l].
  inversion H; subst. cbn. rewrite He. cbn. lia.
Qed.

Lemma tally_bind_template {B} (v : Value) (k : string -> Block B) :
  (forall text, tally p n r t (k text)) -> tally p n r t (bind (template v) k).
Proof.
  intros Hk s c s' es H. unfold bind, template in H.
  destruct (ToString v) as [e | text]; cbn in H.
  - inversion H; subst. cbn. lia.
  - destruct (k text s) as [[c2 s2] es2] eqn:E2. inversion H; subst.
    apply (Hk _ _ _ _ _ E2).
Qed.

Lemma tally_JSON_parse (msg : Message) :
  p Parsing = false -> tally p n r t (JSON_parse msg : Block Value).
Proof.
  intros He s c s' es H. unfold JSON_parse, bind, emit in H.
  destruct (msg_parse msg); inversion H; subst; cbn; rewrite He; cbn; lia.
Qed.

(** [return ws.send(data)] *)
Lemma tally_send_return {A} (data : Outbound) :
  1 <= r -> tally p n r t (bind (ws_send data) (fun _ => return_) : Block A).
Proof.
  intros Hr s c s' es H. inversion H; subst. cbn.
  destruct (p (Sent data)); cbn; lia.
Qed.

(** The [catch] block of the listeners only logs. *)
Lemma tally_try_catch_log (body : Block unit) (text : string) (t' : nat) :
  tally p n r t body -> t <= n -> p (Logged error text) = false ->
  tally p n r t' (try_catch body (fun _ => logger error text)).
Proof.
  intros Hb Ht He s c s' es H. unfold try_catch in H.
  destruct (body s) as [[c1 s1] es1] eqn:E1.
  pose proof (Hb _ _ _ _ E1) as B1.
  destruct c1 as [a| |e].
  - inversion H; subst. exact B1.
  - inversion H; subst. exact B1.
  - inversion H; subst. rewrite filter_app, length_app. cbn. rewrite He.
    cbn in *. lia.
Qed.

End Tally.

Ltac tally_step :=
  unfold logger, heartbeat; cbv zeta;
  first
    [ apply tally_get
    | apply tally_get_keyValidated
    | apply tally_JSON_parse; reflexivity
    | apply tally_set_isAlive
    | apply tally_ws_terminate; reflexivity
    | apply tally_await_other; reflexivity
    | apply tally_await; lia
    | apply tally_atCapacity; solve [intros; reflexivity]
    | apply tally_emit; reflexivity
    | apply tally_ret
    | apply tally_return_
    | apply tally_throw
    | apply tally_bind_template; intro
    | apply tally_if
    | apply tally_send_return; lia
    | match goal with
      | |- tally _ _ _ _ (bind (ws_send _) _) =>
          apply tally_bind_last;
          [unfold ws_send; apply tally_emit_one; lia | lia | lia
          | intro; unfold whatever; respects_blocks]
      end
    | unfold ws_send; apply tally_emit; reflexivity
    | unfold ws_send; apply tally_emit_one; lia
    | apply tally_bind; [| intro] ].

Ltac tally_blocks := repeat tally_step.

(** ** More on the main-channel listener *)

Lemma bind_inv {RateLimiter World A B : Type}
      (m : @M RateLimiter World A) (k : A -> @M RateLimiter World B)
      s c s' es :
  bind m k s = (c, s', es) ->
  (exists a s1 es1 es2,
      m s = (Normal a, s1, es1) /\ k a s1 = (c, s', es2) /\
      es = (es1 ++ es2)%list)
  \/ (m s = (Returned, s', es) /\ c = Returned)
  \/ (exists e, m s = (Thrown e, s', es) /\ c = Thrown e).
Proof.
  unfold bind. intros H.
  destruct (m s) as [[[a| |e] s1] es1].
  - destruct (k a s1) as [[c2 s2] es2] eqn:E2. inversion H; subst.
    left. exists a, s1, es1, es2. auto.
  - inversion H; subst. right. left. auto.
  - inversion H; subst. right. right. exists e. auto.
Qed.

Section Main_channel_invariants.

Context {RateLimiter World : Type}.
Variable atCapacity : RateLimiter -> bool * RateLimiter.
Variable statusCodes : string -> Value.
Variable collaborators : Call -> bool -> World -> Outcome * bool * World.
Local Abbreviation St := (@State RateLimiter World).
Local Abbreviation listener := (on_message atCapacity statusCodes collaborators).
Local Abbreviation handler :=
  (handle_request atCapacity statusCodes collaborators).

Lemma dispatch_sends (action params : Value) :
  tally (RateLimiter := RateLimiter) is_sent 0 1 0
        (dispatch statusCodes collaborators action params).
Proof. unfold dispatch, dispatch_validated. tally_blocks. Qed.

Lemma on_message_body_sends (msg : Message) :
  tally is_sent 1 1 0
        (on_message_body atCapacity statusCodes collaborators msg).
Proof.
  unfold on_message_body, handle_request, respond.
  do 8 (apply tally_bind; [tally_blocks | intro]).
  apply tally_bind; [| intro; tally_blocks].
  apply tally_if; [tally_blocks | apply dispatch_sends].
Qed.

(** X1: whatever the frame, the listener of the main channel sends at most
    one frame in return. *)
Theorem at_most_one_frame_per_message (s : St) (msg : Message) :
  List.length (filter is_sent (events_of (listener msg s))) <= 1.
Proof.
  destruct (listener msg s) as [[c s'] es] eqn:E.
  assert (H : tally is_sent 1 1 1 (listener msg)).
  { unfold on_message. apply tally_bind; [tally_blocks | intros _].
    apply tally_try_catch_log with (t := 0);
      [apply on_message_body_sends | lia | reflexivity]. }
  pose proof (H _ _ _ _ E) as B. cbn. destruct c; exact B.
Qed.

Lemma dispatch_calls (action params : Value) :
  tally (RateLimiter := RateLimiter) is_invoked 1 1 1
        (dispatch statusCodes collaborators action params).
Proof. unfold dispatch, dispatch_validated. tally_blocks. Qed.

Lemma respond_calls (requestId action params : Value) (full : bool) :
  tally (RateLimiter := RateLimiter) is_invoked 1 1 1
        (respond statusCodes collaborators requestId action params full).
Proof.
  unfold respond.
  apply tally_bind_last; [| lia | lia | intro; unfold whatever; respects_blocks].
  apply tally_if; [apply tally_ret | apply dispatch_calls].
Qed.

Lemma on_message_body_calls (msg : Message) :
  tally is_invoked 1 1 1
        (on_message_body atCapacity statusCodes collaborators msg).
Proof.
  unfold on_message_body, handle_request.
  do 8 (apply tally_bind; [tally_blocks | intro]).
  apply respond_calls.
Qed.

(** X2: whatever the frame, the listener of the main channel calls at most
    one controller. *)
Theorem at_most_one_call_per_message (s : St) (msg : Message) :
  List.length (filter is_invoked (events_of (listener msg s))) <= 1.
Proof.
  destruct (listener msg s) as [[c s'] es] eqn:E.
  assert (H : tally is_invoked 1 1 1 (listener msg)).
  { unfold on_message. apply tally_bind; [tally_blocks | intros _].
    apply tally_try_catch_log with (t := 1);
      [apply on_message_body_calls | lia | reflexivity]. }
  pose proof (H _ _ _ _ E) as B. cbn. destruct c; exact B.
Qed.

Lemma dispatch_gated (action params : Value) (s0 : St) c s1 es :
  keyValidated (conn s0) = false ->
  dispatch statusCodes collaborators action params s0 = (c, s1, es) ->
  filter is_gated_invoked es = [].
Proof.
  intros Hkey H. unfold dispatch in H.
  destruct (is_string action "SignOut").
  - match type of H with
    | ?block s0 = _ =>
        assert (Hr : respects whatever is_gated_invoked block)
          by (unfold whatever; respects_blocks)
    end.
    apply (Hr _ _ _ _ H).
  - unfold bind at 1, get_keyValidated in H. rewrite Hkey in H. cbn in H.
    destruct (is_string action "ValidateKey").
    + match type of H with
      | context [?block s0] =>
          destruct (block s0) as [[c2 s2] es2] eqn:E;
          assert (Hr : respects whatever is_gated_invoked block)
            by (unfold whatever; respects_blocks)
      end.
      inversion H; subst. apply (Hr _ _ _ _ E).
    + inversion H; subst. reflexivity.
Qed.

Lemma respond_gated (i a p : Value) (full : bool) (s0 : St) c s1 es :
  keyValidated (conn s0) = false ->
  respond statusCodes collaborators i a p full s0 = (c, s1, es) ->
  filter is_gated_invoked es = [].
Proof.
  intros Hkey H. unfold respond in H.
  apply bind_inv in H.
  destruct H as [(response & s2 & es1 & es2 & Hm & Hk & ->) | [[Hm _] | [e [Hm _]]]].
  - rewrite filter_app.
    assert (H1 : filter is_gated_invoked es1 = []).
    { destruct full; [inversion Hm; reflexivity |].
      apply (dispatch_gated _ _ _ _ _ _ Hkey Hm). }
    rewrite H1. cbn.
    match type of Hk with
    | ?block s2 = _ =>
        assert (Hr : respects whatever is_gated_invoked block)
          by (unfold whatever; respects_blocks)
    end.
    apply (Hr _ _ _ _ Hk).
  - destruct full; [inversion Hm |].
    apply (dispatch_gated _ _ _ _ _ _ Hkey Hm).
  - destruct full; [inversion Hm |].
    apply (dispatch_gated _ _ _ _ _ _ Hkey Hm).
Qed.

Lemma handle_request_gated (i a p : Value) (s0 : St) c s1 es :
  keyValidated (conn s0) = false ->
  handler i a p s0 = (c, s1, es) ->
  filter is_gated_invoked es = [].
Proof.
  intros Hkey H. unfold handle_request in H.
  destruct (is_string a "Pong").
  - inversion H; subst. reflexivity.
  - unfold bind at 1 2 3, rateLimiter_atCapacity in H. cbn in H.
    destruct (atCapacity (rateLimiter (conn s0))) as [full limiter].
    cbn in H.
    match type of H with
    | context [respond ?sc ?co ?i ?a ?p ?f ?st] =>
        destruct (respond sc co i a p f st) as [[c2 s2] es2] eqn:E
    end.
    apply respond_gated in E; [| exact Hkey].
    inversion H; subst. cbn. exact E.
Qed.

(** X3: on a connection whose key is not validated, no frame makes the
    listener call a controller other than [signOut] and [validateKey]: the
    database is out of reach. *)
Theorem unvalidated_connection_is_gated (s : St) (msg : Message) :
  keyValidated (conn s) = false ->
  filter is_gated_invoked (events_of (listener msg s)) = []
  /\ filter is_db_invoked (events_of (listener msg s)) = [].
Proof.
  intros Hkey.
  assert (G : filter is_gated_invoked (events_of (listener msg s)) = []).
  { destruct (read_request FOUR_HUNDRED_KB msg) as [rq |] eqn:Hread.
    - rewrite (on_message_read _ _ _ _ _ _ Hread). unfold try_catch.
      destruct (handler (requestId rq) (action rq) (params rq) (revive s))
        as [[c s1] es] eqn:E.
      apply handle_request_gated in E; [| exact Hkey].
      destruct c; cbn; rewrite ?filter_app, E; reflexivity.
    - unfold read_request in Hread.
      unfold on_message, on_message_body, JSON_parse, try_catch, bind, get.
      destruct (too_large FOUR_HUNDRED_KB msg); cbn; [reflexivity |].
      destruct (msg_parse msg) as [| request]; cbn; [reflexivity |].
      destruct request; cbn in *; try discriminate; reflexivity. }
  split; [exact G |].
  induction (events_of (listener msg s)) as [| e es IH]; [reflexivity |].
  cbn in G |- *.
  destruct e; cbn in *; try (apply IH; exact G).
  destruct c; cbn in *; try discriminate; apply IH; exact G.
Qed.

Lemma filter_nil_In {T : Type} (q : T -> bool) (l : list T) (x : T) :
  filter q l = [] -> In x l -> q x = false.
Proof.
  intros Hf Hin. destruct (q x) eqn:E; [| reflexivity].
  assert (Hx : In x (filter q l)) by (apply filter_In; auto).
  rewrite Hf in Hx. contradiction.
Qed.

Lemma dispatch_diagnostic (action params : Value) (s0 : St) c s1 es d :
  dispatch statusCodes collaborators action params s0 = (c, s1, es) ->
  In (Sent d) es ->
  exists text,
    ToString action = inr text
    /\ d = Plain ("Received unkown action " ++ text).
Proof.
  intros H Hin.
  destruct (ToString action) as [e | text] eqn:E.
  - exfalso.
    assert (Hr : respects whatever is_sent
                   (dispatch (RateLimiter := RateLimiter)
                             statusCodes collaborators action params)).
    { unfold dispatch, dispatch_validated, whatever. respects_blocks.
      congruence. }
    destruct (Hr _ _ _ _ H) as [_ Hf].
    pose proof (filter_nil_In _ _ _ Hf Hin). discriminate.
  - exists text. split; [reflexivity |].
    pose (other := fun e =>
            match e with
            | Sent (Plain line) =>
                negb (String.eqb line ("Received unkown action " ++ text))
            | Sent (JSON_stringify _) => true
            | _ => false
            end).
    assert (Hr : respects whatever other
                   (dispatch (RateLimiter := RateLimiter)
                             statusCodes collaborators action params)).
    { unfold dispatch, dispatch_validated, whatever. respects_blocks.
      match goal with
      | Ht : ToString action = inr ?t |- _ =>
          rewrite E in Ht; inversion Ht; subst t
      end.
      apply respects_emit; try preorder_goal.
      change (negb (String.eqb ("Received unkown action " ++ text)
                               ("Received unkown action " ++ text))
              = false).
      rewrite String.eqb_refl. reflexivity. }
    destruct (Hr _ _ _ _ H) as [_ Hf].
    pose proof (filter_nil_In _ _ _ Hf Hin) as Hd.
    destruct d as [line | v]; [| discriminate Hd].
    change (negb (String.eqb line ("Received unkown action " ++ text))
            = false) in Hd.
    apply negb_false_iff, String.eqb_eq in Hd. congruence.
Qed.

Lemma respond_frames (i a p : Value) (full : bool) (s0 : St) c s1 es d :
  respond statusCodes collaborators i a p full s0 = (c, s1, es) ->
  In (Sent d) es ->
  (exists text,
      ToString a = inr text /\ d = Plain ("Received unkown action " ++ text))
  \/ exists response,
      nullish response = false /\
      d = JSON_stringify (VObj [("requestId", i); ("response", response);
                                ("route", a)]).
Proof.
  intros H Hin. unfold respond in H. apply bind_inv in H.
  destruct H as [(response & s2 & es1 & es2 & Hm & Hk & ->)
                | [[Hm _] | [e [Hm _]]]].
  - apply in_app_or in Hin. destruct Hin as [Hin | Hin].
    + exfalso.
      assert (Hq : filter is_sent es1 = []).
      { destruct full; [inversion Hm; reflexivity |].
        apply (dispatch_quiet statusCodes collaborators _ _ _ _ _ _ Hm).
        discriminate. }
      pose proof (filter_nil_In _ _ _ Hq Hin). discriminate.
    + right. exists response. cbv zeta in Hk. unfold get in Hk.
      destruct (member response "status") as [e | status] eqn:Em.
      * inversion Hk; subst. contradiction.
      * inversion Hk; subst. cbn in Hin.
        destruct Hin as [Hin | [Hin | []]]; [discriminate |].
        inversion Hin; subst. split; [| reflexivity].
        destruct response; cbn in Em; try discriminate; reflexivity.
  - left. destruct full; [inversion Hm |].
    apply (dispatch_diagnostic _ _ _ _ _ _ _ Hm Hin).
  - exfalso. destruct full; [inversion Hm |].
    assert (Hq : filter is_sent es = []).
    { apply (dispatch_quiet statusCodes collaborators _ _ _ _ _ _ Hm).
      discriminate. }
    pose proof (filter_nil_In _ _ _ Hq Hin). discriminate.
Qed.

Lemma handle_request_frames (i a p : Value) (s0 : St) c s1 es d :
  handler i a p s0 = (c, s1, es) ->
  In (Sent d) es ->
  (exists text,
      ToString a = inr text /\ d = Plain ("Received unkown action " ++ text))
  \/ exists response,
      nullish response = false /\
      d = JSON_stringify (VObj [("requestId", i); ("response", response);
                                ("route", a)]).
Proof.
  intros H Hin. unfold handle_request in H.
  destruct (is_string a "Pong").
  - inversion H; subst. contradiction.
  - unfold bind at 1 2 3, rateLimiter_atCapacity in H. cbn in H.
    destruct (atCapacity (rateLimiter (conn s0))) as [full limiter].
    cbn in H.
    match type of H with
    | context [respond ?sc ?co ?i ?a ?p ?f ?st] =>
        destruct (respond sc co i a p f st) as [[c2 s2] es2] eqn:E
    end.
    inversion H; subst. cbn in Hin.
    destruct Hin as [Hin | [Hin | Hin]]; try discriminate.
    apply (respond_frames _ _ _ _ _ _ _ _ _ E Hin).
Qed.

(** X4: every frame the listener of the main channel sends is the plain
    'Message is too large' when the frame received was not read, and
    otherwise either the plain 'Received unkown action ...' or the envelope
    with the requestId and the action of the request and a response that
    is neither undefined nor null. *)
Theorem every_frame_answers_its_request (s : St) (msg : Message)
        (d : Outbound) :
  In (Sent d) (events_of (listener msg s)) ->
  match read_request FOUR_HUNDRED_KB msg with
  | None => d = Plain "Message is too large"
  | Some rq =>
      (exists text,
          ToString (action rq) = inr text
          /\ d = Plain ("Received unkown action " ++ text))
      \/ exists response,
          nullish response = false /\ d = response_frame rq response
  end.
Proof.
  destruct (read_request FOUR_HUNDRED_KB msg) as [rq |] eqn:Hread.
  - rewrite (on_message_read _ _ _ _ _ _ Hread). unfold try_catch.
    destruct (handler (requestId rq) (action rq) (params rq) (revive s))
      as [[c s1] es] eqn:E.
    intros Hin.
    apply (handle_request_frames _ _ _ _ _ _ _ _ E).
    destruct c; cbn in Hin; destruct Hin as [Hin | Hin];
      try discriminate; try exact Hin.
    apply in_app_or in Hin. destruct Hin as [Hin | [Hin | []]];
      [exact Hin | discriminate].
  - unfold read_request in Hread.
    unfold on_message, on_message_body, JSON_parse, try_catch, bind, get.
    destruct (too_large FOUR_HUNDRED_KB msg); cbn.
    + intros [Hin | [Hin | []]]; [discriminate | congruence].
    + destruct (msg_parse msg) as [| request]; cbn.
      * intros [Hin | [Hin | []]]; discriminate.
      * destruct request; cbn in *; try discriminate;
          intros [Hin | [Hin | []]]; discriminate.
Qed.

(** X5: SignOut is served whatever the key-validation state: with budget
    left, the listener calls [signOut] with [params.sessionId] and sends
    what it resolves with. *)
Theorem sign_out_in_either_state
        (s : St) (msg : Message) (rq : Request)
        (sessionId response : Value) (validated : bool) (w : World) :
  read_request FOUR_HUNDRED_KB msg = Some rq ->
  is_string (action rq) "SignOut" = true ->
  fst (atCapacity (limiter_of s)) = false ->
  member (params rq) "sessionId" = inr sessionId ->
  collaborators (signOut sessionId) (keyValidated (conn s)) (world s)
    = (Resolves response, validated, w) ->
  nullish response = false ->
  listener msg s =
    (Normal tt,
     {| ws := ws (revive s);
        conn := {| keyValidated := validated;
                   rateLimiter := snd (atCapacity (limiter_of s)) |};
        world := w |},
     [Parsing;
      Logged info "Received WebSocket request";
      Consulted false;
      Invoked (signOut sessionId);
      Logged info "Sent response over WebSocket";
      Sent (response_frame rq response)]).
Proof.
  intros Hread Hout Hfull Hsession Hcall Hresponse.
  assert (Hpong : is_string (action rq) "Pong" = false)
    by (rewrite (is_string_eq _ _ Hout); reflexivity).
  rewrite (on_message_admitted _ _ _ _ _ _ Hread Hpong Hfull).
  unfold respond, dispatch, try_catch, bind, await, get.
  rewrite Hout, Hsession. cbn. rewrite Hcall. cbn.
  destruct response; try discriminate; reflexivity.
Qed.

(** X6: a request that is read, finds the limiter with budget left, and
    whose action reads a field of [params] in the connection's state, but
    that carries no [params] (or null), is dropped after the limiter was
    consulted: the TypeError is logged, no controller is called and
    nothing is sent. *)
Theorem missing_params_unanswered (s : St) (msg : Message) (rq : Request) :
  read_request FOUR_HUNDRED_KB msg = Some rq ->
  nullish (params rq) = true ->
  reads_params (keyValidated (conn s)) (action rq) = true ->
  fst (atCapacity (limiter_of s)) = false ->
  listener msg s =
    (Normal tt, consulted (snd (atCapacity (limiter_of s))) (revive s),
     [Parsing;
      Logged info "Received WebSocket request";
      Consulted false;
      Logged error "Error in Websocket handling message"]).
Proof.
  intros Hread Hparams Hreads Hfull.
  assert (Hname : exists name,
             action rq = VStr name /\
             In name ["SignOut"; "ValidateKey"; "UpdateUser"; "OpenDatabase";
                      "Insert"; "Update"; "Delete"; "BatchTransaction";
                      "Bundle"]
             /\ (name = "ValidateKey" -> keyValidated (conn s) = false)
             /\ (name <> "SignOut" -> name <> "ValidateKey" ->
                 keyValidated (conn s) = true)).
  { unfold reads_params in Hreads.
    apply orb_true_iff in Hreads. destruct Hreads as [H | H].
    - exists "SignOut". split; [apply is_string_eq, H |].
      split; [cbn; tauto |].
      split; [intros; discriminate | intros; congruence].
    - destruct (keyValidated (conn s)).
      + apply existsb_exists in H. destruct H as (name & Hin & H).
        exists name. split; [apply is_string_eq, H |].
        split; [cbn in Hin |- *; tauto |].
        split; [intros ->; cbn in Hin; intuition discriminate |].
        intros; reflexivity.
      + exists "ValidateKey". split; [apply is_string_eq, H |].
        split; [cbn; tauto |].
        split; [intros; reflexivity | intros; congruence]. }
  destruct Hname as (name & Haction & Hin & Hvalidate & Hother).
  assert (Hpong : is_string (action rq) "Pong" = false).
  { rewrite Haction. cbn in Hin.
    repeat (destruct Hin as [<- | Hin]; [reflexivity |]). contradiction. }
  rewrite (on_message_admitted _ _ _ _ _ _ Hread Hpong Hfull).
  unfold respond, dispatch, dispatch_validated, try_catch, bind,
    get_keyValidated, get.
  rewrite Haction.
  destruct (params rq); try discriminate; cbn in Hin;
    repeat (destruct Hin as [<- | Hin];
            [cbn; try rewrite Hvalidate by reflexivity;
             try rewrite Hother by discriminate; reflexivity |]);
    contradiction.
Qed.

(** X7: when the controller resolves with undefined or null, the read of
    [response.status] throws: the request is logged as an error and is
    not answered. *)
Theorem empty_response_not_sent
        (s : St) (msg : Message) (rq : Request)
        (response : Value) (s1 : St) (es : list Event) :
  read_request FOUR_HUNDRED_KB msg = Some rq ->
  is_string (action rq) "Pong" = false ->
  fst (atCapacity (limiter_of s)) = false ->
  dispatch statusCodes collaborators (action rq) (params rq)
           (consulted (snd (atCapacity (limiter_of s))) (revive s))
    = (Normal response, s1, es) ->
  nullish response = true ->
  listener msg s =
    (Normal tt, s1,
     [Parsing; Logged info "Received WebSocket request"; Consulted false]
       ++ es ++ [Logged error "Error in Websocket handling message"])%list
  /\ filter is_sent es = [].
Proof.
  intros Hread Hpong Hfull Hdispatch Hresponse. split.
  - rewrite (on_message_admitted _ _ _ _ _ _ Hread Hpong Hfull).
    unfold respond, try_catch, bind. rewrite Hdispatch.
    destruct response; try discriminate; cbn; rewrite app_nil_r;
      reflexivity.
  - apply (dispatch_quiet statusCodes collaborators _ _ _ _ _ _ Hdispatch).
    discriminate.
Qed.

(** X8: a frame that is JSON but neither an object nor null (a number, a
    string, a boolean, an array) is read as a request without requestId,
    action and params: it is counted, and answered with Unauthorized on an
    unvalidated connection and with 'Received unkown action undefined' on
    a validated one. *)
Theorem json_that_is_no_object (s : St) (msg : Message) (v : Value) :
  too_large FOUR_HUNDRED_KB msg = false ->
  msg_parse msg = Parses v ->
  nullish v = false ->
  (forall fields, v <> VObj fields) ->
  fst (atCapacity (limiter_of s)) = false ->
  let rq := {| requestId := VUndefined; action := VUndefined;
               params := VUndefined |} in
  let s' := consulted (snd (atCapacity (limiter_of s))) (revive s) in
  read_request FOUR_HUNDRED_KB msg = Some rq
  /\ listener msg s =
     if keyValidated (conn s)
     then (Returned, s',
           [Parsing;
            Logged info "Received WebSocket request";
            Consulted false;
            Logged error "Received unknown action over WebSocket";
            Sent (Plain "Received unkown action undefined")])
     else (Normal tt, s',
           answered false rq
                    (errorResponse (statusCodes "Unauthorized")
                                   (VStr "Key not validated"))).
Proof.
  intros Hsize Hparse Hnull Hobject Hfull rq s'.
  assert (Hread : read_request FOUR_HUNDRED_KB msg = Some rq).
  { unfold read_request. rewrite Hsize, Hparse.
    destruct v; try discriminate; try reflexivity.
    exfalso. apply (Hobject fields). reflexivity. }
  split; [exact Hread |].
  rewrite (on_message_admitted _ _ _ _ _ _ Hread eq_refl Hfull).
  unfold respond, dispatch, dispatch_validated, try_catch, bind,
    get_keyValidated.
  cbn. destruct (keyValidated (conn s)); reflexivity.
Qed.

(** X19: the listener of the main channel calls a controller only for a
    frame that was read, is not a Pong, and found the rate limiter with
    budget left. *)
Theorem controller_call_needs_budget (s : St) (msg : Message) (c : Call) :
  In (Invoked c) (events_of (listener msg s)) ->
  exists rq,
    read_request FOUR_HUNDRED_KB msg = Some rq
    /\ is_string (action rq) "Pong" = false
    /\ fst (atCapacity (limiter_of s)) = false.
Proof.
  destruct (read_request FOUR_HUNDRED_KB msg) as [rq |] eqn:Hread.
  - intros Hin. exists rq. split; [reflexivity |].
    rewrite (on_message_read _ _ _ _ _ _ Hread) in Hin.
    unfold handle_request, respond, try_catch, bind, rateLimiter_atCapacity
      in Hin.
    destruct (is_string (action rq) "Pong").
    + cbn in Hin. destruct Hin as [Hin | []]. discriminate.
    + split; [reflexivity |]. cbn in Hin.
      change (rateLimiter (conn s)) with (limiter_of s) in Hin.
      destruct (atCapacity (limiter_of s)) as [[|] limiter];
        [| reflexivity].
      cbn in Hin. exfalso.
      repeat (destruct Hin as [Hin | Hin]; [discriminate |]). exact Hin.
  - unfold read_request in Hread.
    unfold on_message, on_message_body, JSON_parse, try_catch, bind, get.
    destruct (too_large FOUR_HUNDRED_KB msg); cbn.
    + intros [Hin | [Hin | []]]; discriminate.
    + destruct (msg_parse msg) as [| request]; cbn.
      * intros [Hin | [Hin | []]]; discriminate.
      * destruct request; cbn in *; try discriminate;
          intros [Hin | [Hin | []]]; discriminate.
Qed.

(** X20: every frame on the main channel, also one that is turned down
    (oversized, malformed, unauthorized, over budget), raises the liveness
    flag of the socket and leaves the socket as open as it was. *)
Theorem every_frame_counts_as_alive (s : St) (msg : Message) :
  liveness (state_after (listener msg s)) = true
  /\ closed (state_after (listener msg s)) = closed s.
Proof.
  destruct (listener msg s) as [[c s'] es] eqn:E.
  destruct (on_message_revives atCapacity statusCodes collaborators
                               _ _ _ _ _ E) as [Hc Hl].
  split; [exact Hl | exact Hc].
Qed.

End Main_channel_invariants.

(** ** More on the heartbeat and the forgot-password channel *)

Section Sockets.

Context {RateLimiter World : Type}.
Variable atCapacity : RateLimiter -> bool * RateLimiter.
Variable statusCodes : string -> Value.
Variable collaborators : Call -> bool -> World -> Outcome * bool * World.
Local Abbreviation St := (@State RateLimiter World).
Local Abbreviation listener := (on_message atCapacity statusCodes collaborators).
Local Abbreviation forgot_password_listener :=
  (on_forgot_password_message (RateLimiter := RateLimiter)
                              statusCodes collaborators).

Lemma run_stays_closed (inputs : list Stimulus) :
  forall s : St,
    closed s = true -> closed (fst (run listener inputs s)) = true.
Proof.
  induction inputs as [| i rest IH]; intros s Hclosed; [exact Hclosed |].
  destruct i as [msg |]; cbn [run react].
  - destruct (listener msg s) as [[c s1] es1] eqn:E.
    destruct (on_message_revives atCapacity statusCodes collaborators
                                 _ _ _ _ _ E) as [Hc _].
    rewrite <- Hc in Hclosed. specialize (IH s1 Hclosed).
    destruct (run listener rest s1) as [s2 es2]. exact IH.
  - rewrite ping_cases.
    destruct (liveness s);
      match goal with
      | |- context [run ?l rest ?st] =>
          specialize (IH st); destruct (run l rest st) as [s2 es2]
      end; apply IH; [exact Hclosed | reflexivity].
Qed.

(** X9: a socket of the main channel is terminated exactly when a sweep
    found its liveness flag down, that is when two sweeps passed with no
    frame in between (or the first sweep found the flag down already). *)
Theorem terminated_iff_irregular (inputs : list Stimulus) (s : St) :
  closed s = false ->
  closed (fst (run listener inputs s)) = negb (regular (liveness s) inputs).
Proof.
  revert s. induction inputs as [| i rest IH]; intros s Hopen.
  - exact Hopen.
  - destruct i as [msg |]; cbn [run react regular].
    + destruct (listener msg s) as [[c s1] es1] eqn:E.
      destruct (on_message_revives atCapacity statusCodes collaborators
                                   _ _ _ _ _ E) as [Hc Hl].
      rewrite <- Hc in Hopen. specialize (IH s1 Hopen). rewrite Hl in IH.
      destruct (run listener rest s1) as [s2 es2]. exact IH.
    + rewrite ping_cases. destruct (liveness s) eqn:Hl.
      * specialize (IH (probe s) Hopen).
        destruct (run listener rest (probe s)) as [s2 es2]. exact IH.
      * pose proof (run_stays_closed rest (ended s) eq_refl) as Hc.
        destruct (run listener rest (ended s)) as [s2 es2]. exact Hc.
Qed.

(** X10: the sweep keeps every socket in the set; after it each socket is
    terminated or has its liveness flag down, so that a second sweep with
    no frame in between terminates them all. *)
Theorem sweep_lowers_every_flag (clients : list St) :
  List.length (ping_all clients) = List.length clients
  /\ Forall (fun r => closed (fst r) = true \/ liveness (fst r) = false)
            (ping_all clients)
  /\ Forall (fun r => closed (fst r) = true)
            (ping_all (map fst (ping_all clients))).
Proof.
  unfold ping_all. repeat split.
  - apply length_map.
  - apply Forall_map, Forall_forall. intros s _. rewrite ping_cases.
    destruct (liveness s); cbn; auto.
  - rewrite map_map. apply Forall_map, Forall_map, Forall_forall.
    intros [[[|] was_closed] connection w] _; reflexivity.
Qed.

(** X11: a ForgotPassword request whose controller resolves with a response
    ends the socket, whatever the response: one frame is sent, with route
    SuccessfullyForgotPassword when the status is Success and with route
    Error, the status and the data otherwise, and the socket is
    terminated. *)
Theorem forgot_password_exchange_ends_socket
        (s : St) (msg : Message) (rq : Request)
        (token response status data : Value) (validated : bool) (w : World) :
  read_request FIVE_KB msg = Some rq ->
  is_string (action rq) "ForgotPassword" = true ->
  member (params rq) "forgotPasswordToken" = inr token ->
  collaborators (forgotPassword token) (keyValidated (conn s)) (world s)
    = (Resolves response, validated, w) ->
  member response "status" = inr status ->
  member response "data" = inr data ->
  let s' := {| ws := {| isAlive := isAlive (ws s); terminated := true |};
               conn := {| keyValidated := validated;
                          rateLimiter := rateLimiter (conn s) |};
               world := w |} in
  forgot_password_listener msg s =
    (Normal tt, s',
     [Parsing; Invoked (forgotPassword token)]
       ++ (if strict_eq status (statusCodes "Success")
           then [Logged info "Forgot password finished";
                 Sent (JSON_stringify
                         (VObj [("route", VStr "SuccessfullyForgotPassword");
                                ("response", response)]))]
           else [Sent (JSON_stringify
                         (VObj [("route", VStr "Error");
                                ("status", status);
                                ("data", data)]))])
       ++ [Terminate])%list
  /\ closed s' = true.
Proof.
  intros Hread Haction Htoken Hcall Hstatus Hdata s'.
  split; [| reflexivity].
  destruct (read_request_inv _ _ _ Hread)
    as (Hsize & request & Hparse & Hi & Ha & Hp).
  unfold on_forgot_password_message, on_forgot_password_message_body,
    JSON_parse, try_catch, bind, get, await.
  rewrite Hsize; cbn. rewrite Hparse; cbn. rewrite Ha; cbn.
  rewrite Hp; cbn. rewrite Haction, Htoken. cbn. rewrite Hcall. cbn.
  rewrite Hstatus. cbn.
  destruct (strict_eq status (statusCodes "Success")); cbn;
    [| rewrite Hdata]; reflexivity.
Qed.

(** X12: a ForgotPassword request whose controller throws, or resolves
    with undefined or null, is logged and not answered, and the socket is
    left open. *)
Theorem forgot_password_failure_leaves_socket_open
        (s : St) (msg : Message) (rq : Request)
        (token : Value) (outcome : Outcome) (validated : bool) (w : World) :
  read_request FIVE_KB msg = Some rq ->
  is_string (action rq) "ForgotPassword" = true ->
  member (params rq) "forgotPasswordToken" = inr token ->
  collaborators (forgotPassword token) (keyValidated (conn s)) (world s)
    = (outcome, validated, w) ->
  match outcome with
  | Resolves response => nullish response = true
  | Rejects _ => True
  end ->
  forgot_password_listener msg s =
    (Normal tt,
     {| ws := ws s;
        conn := {| keyValidated := validated;
                   rateLimiter := rateLimiter (conn s) |};
        world := w |},
     [Parsing; Invoked (forgotPassword token);
      Logged error "Error in forgot-password Websocket"]).
Proof.
  intros Hread Haction Htoken Hcall Houtcome.
  destruct (read_request_inv _ _ _ Hread)
    as (Hsize & request & Hparse & Hi & Ha & Hp).
  unfold on_forgot_password_message, on_forgot_password_message_body,
    JSON_parse, try_catch, bind, get, await.
  rewrite Hsize; cbn. rewrite Hparse; cbn. rewrite Ha; cbn.
  rewrite Hp; cbn. rewrite Haction, Htoken. cbn. rewrite Hcall.
  destruct outcome as [response | reason]; cbn; [| reflexivity].
  destruct response; try discriminate; reflexivity.
Qed.

(** X13: whatever the frame, the listener of the forgot-password channel
    sends at most one frame, calls at most one controller and never
    consults a rate limiter. *)
Theorem forgot_password_listener_is_frugal (s : St) (msg : Message) :
  List.length (filter is_sent (events_of (forgot_password_listener msg s)))
  <= 1
  /\ List.length
       (filter is_invoked (events_of (forgot_password_listener msg s))) <= 1
  /\ filter is_consulted (events_of (forgot_password_listener msg s)) = [].
Proof.
  destruct (forgot_password_listener msg s) as [[c s'] es] eqn:E.
  assert (Hs : tally is_sent 1 1 1 (forgot_password_listener msg)).
  { unfold on_forgot_password_message, on_forgot_password_message_body.
    apply tally_try_catch_log with (t := 1); [| lia | reflexivity].
    tally_blocks. }
  assert (Hc : tally is_invoked 1 1 1 (forgot_password_listener msg)).
  { unfold on_forgot_password_message, on_forgot_password_message_body.
    apply tally_try_catch_log with (t := 1); [| lia | reflexivity].
    do 4 (apply tally_bind; [tally_blocks | intro]).
    apply tally_if; [| tally_blocks].
    apply tally_bind; [tally_blocks | intro].
    apply tally_bind_last;
      [tally_blocks | lia | lia | intro; unfold whatever; respects_blocks]. }
  pose proof (Hs _ _ _ _ E) as Bs. pose proof (Hc _ _ _ _ E) as Bc.
  destruct (on_forgot_password_message_keeps_limiter
              statusCodes collaborators _ _ _ _ _ E) as [_ Hl].
  cbn. repeat split; [destruct c; exact Bs | destruct c; exact Bc | exact Hl].
Qed.

Lemma member_defined (v : Value) (k k' : string) (x : Value) :
  member v k = inr x -> exists y, member v k' = inr y.
Proof.
  destruct v; cbn; intros H; try discriminate; eauto.
Qed.

(** X14: when the forgot-password socket opens and the token controller
    resolves with a status other than Success, one Error frame with the
    status and the data is sent, the socket is terminated and no listener
    is installed; when it resolves with Success and the user and admin
    records, one ReceiveEncryptedToken frame with the user's salt and the
    encrypted token is sent, the socket stays open and the listener is
    installed. *)
Theorem forgot_password_opening
        (s : St) (result status data : Value) (validated : bool) (w : World) :
  collaborators generateForgotPasswordToken (keyValidated (conn s)) (world s)
    = (Resolves result, validated, w) ->
  member result "status" = inr status ->
  member result "data" = inr data ->
  let s1 := {| ws := ws (revive s);
               conn := {| keyValidated := validated;
                          rateLimiter := rateLimiter (conn s) |};
               world := w |} in
  let opening :=
    [Logged info "Opened forgot-password WebSocket";
     Invoked generateForgotPasswordToken] in
  (strict_eq status (statusCodes "Success") = false ->
   on_forgot_password statusCodes collaborators s =
     (Normal false, ended s1,
      opening ++ [Sent (JSON_stringify (VObj [("route", VStr "Error");
                                              ("status", status);
                                              ("data", data)]));
                  Terminate])%list)
  /\
  (strict_eq status (statusCodes "Success") = true ->
   forall user admin adminId dhKeySalt encryptedForgotPasswordToken : Value,
     member data "user" = inr user ->
     member data "admin" = inr admin ->
     member data "encryptedForgotPasswordToken"
       = inr encryptedForgotPasswordToken ->
     member admin "admin-id" = inr adminId ->
     member user "diffie-hellman-key-salt" = inr dhKeySalt ->
     on_forgot_password statusCodes collaborators s =
       (Normal true, s1,
        opening ++ [Sent (JSON_stringify
                            (VObj [("route", VStr "ReceiveEncryptedToken");
                                   ("dhKeySalt", dhKeySalt);
                                   ("encryptedForgotPasswordToken",
                                    encryptedForgotPasswordToken)]))])%list).
Proof.
  intros Hcall Hstatus Hdata s1 opening. split.
  - intros Hrefused.
    unfold on_forgot_password, bind, await, get. cbn. rewrite Hcall. cbn.
    rewrite Hstatus. cbn. rewrite Hrefused. cbn. rewrite Hdata.
    reflexivity.
  - intros Hsuccess user admin adminId dhKeySalt token
           Huser Hadmin Htoken HadminId Hsalt.
    destruct (member_defined _ _ "app" _ Huser) as [app Happ].
    destruct (member_defined _ _ "forgotPasswordToken" _ Huser)
      as [plain Hplain].
    destruct (member_defined _ _ "user-id" _ Hsalt) as [userId HuserId].
    unfold on_forgot_password, bind, await, get. cbn. rewrite Hcall. cbn.
    rewrite Hstatus. cbn. rewrite Hsuccess. cbn. rewrite Hdata. cbn.
    rewrite Huser. cbn. rewrite Happ. cbn. rewrite Hadmin. cbn.
    rewrite Hplain. cbn. rewrite Htoken. cbn. rewrite HuserId. cbn.
    rewrite HadminId. cbn. rewrite Hsalt. reflexivity.
Qed.

End Sockets.

(** ** Opening a connection *)

Section Connections.

Context {RateLimiter World : Type}.
Variable register :
  Value -> Value -> Value -> Value -> World ->
  option (@Connection RateLimiter) * World.
Variable getValidationMessage : Value -> Exn + Value.
Local Abbreviation St := (@State RateLimiter World).
Local Abbreviation connect := (on_connection register getValidationMessage).

(** A socket without a listener that two sweeps are still to find. *)
Lemma doomed_run_unheard (inputs : list Stimulus) :
  forall (n : nat) (s : St),
    doomed n s -> n <= sweeps inputs ->
    closed (fst (run unheard inputs s)) = true.
Proof.
  induction inputs as [| i rest IH]; intros n s Hd Hn.
  - cbn in Hn. assert (n = 0) by lia. subst n. exact Hd.
  - destruct i as [msg |]; cbn [run react].
    + cbn. specialize (IH n s Hd Hn).
      destruct (run unheard rest s) as [s2 es2]. exact IH.
    + rewrite ping_cases.
      assert (Hn' : pred n <= sweeps rest)
        by (unfold sweeps in *; cbn in Hn; lia).
      pose proof (IH (pred n) _ (doomed_sweep _ _ Hd) Hn') as IH'.
      destruct (liveness s);
        match goal with
        | |- context [run ?l rest ?st] =>
            destruct (run l rest st) as [s2 es2]
        end; exact IH'.
Qed.

(** X15: when the registry refuses the connection, the socket is told
    nothing and gets no listener: nothing is sent or logged, and since no
    frame can raise its liveness flag again, it is terminated once the
    sweep has passed twice. *)
Theorem refused_connection_is_left_to_the_sweep
        (s : St) (locals query : Value)
        (user userId userPublicKey admin adminId app appId clientId : Value)
        (w : World) :
  member locals "user" = inr user ->
  member user "user-id" = inr userId ->
  member user "public-key" = inr userPublicKey ->
  member locals "admin" = inr admin ->
  member admin "admin-id" = inr adminId ->
  member locals "app" = inr app ->
  member app "app-id" = inr appId ->
  member query "clientId" = inr clientId ->
  register userId clientId adminId appId (world s) = (None, w) ->
  let s' := {| ws := ws (revive s); conn := conn s; world := w |} in
  connect locals query s = (Normal false, s', [])
  /\ forall inputs : list Stimulus,
      2 <= sweeps inputs ->
      closed (fst (run unheard inputs s')) = true.
Proof.
  intros Huser HuserId Hkey Hadmin HadminId Happ HappId Hclient Hregister s'.
  split.
  - unfold on_connection, bind, get, connections_register. cbn.
    rewrite Huser; cbn. rewrite HuserId; cbn. rewrite Hkey; cbn.
    rewrite Hadmin; cbn. rewrite HadminId; cbn. rewrite Happ; cbn.
    rewrite HappId; cbn. rewrite Hclient; cbn. rewrite Hregister.
    reflexivity.
  - intros inputs. apply (doomed_run_unheard inputs 2 s'). exact I.
Qed.

(** X16: when [res.locals] carries the user, admin and app records and
    the registry lets the connection in, what happens next depends on
    [userController.getValidationMessage].  When it returns the object
    with the validation message, the one frame sent is the Connection
    frame, with the three salts of the user and the encrypted validation
    message, and the listeners are installed on the connection the
    registry made.  When it throws, or returns undefined or null, the
    exception leaves the handler: nothing is sent or logged and no
    listener is installed, though the connection is registered. *)
Theorem accepted_connection_is_challenged
        (s : St) (locals query : Value)
        (user userId userPublicKey admin adminId app appId clientId : Value)
        (c : Connection) (w : World) :
  member locals "user" = inr user ->
  member user "user-id" = inr userId ->
  member user "public-key" = inr userPublicKey ->
  member locals "admin" = inr admin ->
  member admin "admin-id" = inr adminId ->
  member locals "app" = inr app ->
  member app "app-id" = inr appId ->
  member query "clientId" = inr clientId ->
  register userId clientId adminId appId (world s) = (Some c, w) ->
  let s' := {| ws := ws (revive s); conn := c; world := w |} in
  (forall message validationMessage encryptedValidationMessage
          encryptionKeySalt dhKeySalt hmacKeySalt : Value,
      getValidationMessage userPublicKey = inr message ->
      member message "validationMessage" = inr validationMessage ->
      member message "encryptedValidationMessage"
        = inr encryptedValidationMessage ->
      member user "encryption-key-salt" = inr encryptionKeySalt ->
      member user "diffie-hellman-key-salt" = inr dhKeySalt ->
      member user "hmac-key-salt" = inr hmacKeySalt ->
      connect locals query s =
        (Normal true, s',
         [Logged info "Sending Connection over WebSocket";
          Sent (JSON_stringify
                  (VObj [("route", VStr "Connection");
                         ("keySalts",
                          VObj [("encryptionKeySalt", encryptionKeySalt);
                                ("dhKeySalt", dhKeySalt);
                                ("hmacKeySalt", hmacKeySalt)]);
                         ("encryptedValidationMessage",
                          encryptedValidationMessage)]))]))
  /\ (forall e : Exn,
         getValidationMessage userPublicKey = inl e ->
         connect locals query s = (Thrown e, s', []))
  /\ (forall message : Value,
         getValidationMessage userPublicKey = inr message ->
         nullish message = true ->
         connect locals query s = (Thrown TypeError, s', [])).
Proof.
  intros Huser HuserId Hkey Hadmin HadminId Happ HappId Hclient Hregister s'.
  assert (Hstart :
            connect locals query s =
            match getValidationMessage userPublicKey with
            | inl e => (Thrown e, s', [])
            | inr message =>
                match member message "validationMessage",
                      member message "encryptedValidationMessage",
                      member user "encryption-key-salt",
                      member user "diffie-hellman-key-salt",
                      member user "hmac-key-salt" with
                | inr _, inr sealed, inr s1, inr s2, inr s3 =>
                    (Normal true, s',
                     [Logged info "Sending Connection over WebSocket";
                      Sent (JSON_stringify
                              (VObj [("route", VStr "Connection");
                                     ("keySalts",
                                      VObj [("encryptionKeySalt", s1);
                                            ("dhKeySalt", s2);
                                            ("hmacKeySalt", s3)]);
                                     ("encryptedValidationMessage",
                                      sealed)]))])
                | _, _, _, _, _ => (Thrown TypeError, s', [])
                end
            end).
  { unfold on_connection, bind, get, connections_register,
      call_getValidationMessage.
    cbn.
    rewrite Huser; cbn. rewrite HuserId; cbn. rewrite Hkey; cbn.
    rewrite Hadmin; cbn. rewrite HadminId; cbn. rewrite Happ; cbn.
    rewrite HappId; cbn. rewrite Hclient; cbn. rewrite Hregister; cbn.
    destruct (getValidationMessage userPublicKey) as [e | message];
      [reflexivity |].
    cbn.
    destruct (member_defined _ _ "encryption-key-salt" _ HuserId)
      as [s1 Hs1].
    destruct (member_defined _ _ "diffie-hellman-key-salt" _ HuserId)
      as [s2 Hs2].
    destruct (member_defined _ _ "hmac-key-salt" _ HuserId) as [s3 Hs3].
    rewrite Hs1, Hs2, Hs3.
    destruct message; cbn; reflexivity. }
  split; [| split].
  - intros message plain sealed s1 s2 s3 Hmessage Hplain Hsealed H1 H2 H3.
    rewrite Hstart, Hmessage, Hplain, Hsealed, H1, H2, H3. reflexivity.
  - intros e He. rewrite Hstart, He. reflexivity.
  - intros message Hmessage Hnull. rewrite Hstart, Hmessage.
    destruct message; try discriminate; reflexivity.
Qed.

End Connections.

(** ** The internal server and the choice of the public one *)

Section Internal_properties.

Context {Registry : Type}.
Variable push : Value -> Value -> Registry -> option Exn * Registry.
Variable statusCodes : string -> Value.

(** X17: on a body that is an object, the handler of
    /internal/notify-transaction answers exactly once and does not throw:
    with an empty success when the body has a transaction and
    [connections.push] returns, and with Internal Server Error and the
    fixed message when the transaction is missing or the push throws;
    the push is attempted once when there is a transaction, and not at all
    when there is none. *)
Theorem notify_transaction_replies_once
        (body transaction userId : Value) (registry : Registry) :
  member body "transaction" = inr transaction ->
  member body "userId" = inr userId ->
  let '(outcome, registry', effects) :=
    notify_transaction push statusCodes body registry in
  let pushed := push transaction userId registry in
  outcome = inr tt
  /\ filter is_replied effects =
     [match nullish transaction, fst pushed with
      | false, None => Replied None None
      | _, _ => Replied (Some (statusCodes "Internal Server Error"))
                        (Some push_failed)
      end]
  /\ filter is_pushed effects =
     (if nullish transaction then [] else [Pushed transaction userId])
  /\ registry' = (if nullish transaction then registry else snd pushed).
Proof.
  intros Htransaction HuserId.
  unfold notify_transaction. rewrite Htransaction, HuserId.
  destruct transaction; cbn;
    try (destruct (push _ userId registry) as [[e |] registry'];
         cbn; repeat split; reflexivity);
    repeat split; reflexivity.
Qed.

End Internal_properties.


Section Launching.

Variable setup_init : Value -> option Exn.


End Launching.

(** ** The further theorems on the sample server *)

Section More_instances.

Import Sample Fixtures.

Lemma unvalidated_connection_is_gated_on_sample :
  keyValidated (conn (opened false 5 0)) = false
  /\ filter is_gated_invoked
            (events_of (listen (frame "Insert") (opened false 5 0))) = []
  /\ filter is_db_invoked
            (events_of (listen (frame "Insert") (opened false 5 0))) = [].
Proof.
  split; [reflexivity |].
  exact (unvalidated_connection_is_gated
           atCapacity statusCodes obliging
           (opened false 5 0) (frame "Insert") eq_refl).
Defined.

Lemma every_frame_answers_its_request_on_sample :
  In (Sent (Plain "Received unkown action Frobnicate"))
     (events_of (listen (frame "Frobnicate") (opened true 5 0)))
  /\ ((exists text,
          ToString (action (request "Frobnicate")) = inr text
          /\ Plain "Received unkown action Frobnicate"
             = Plain ("Received unkown action " ++ text))
      \/ exists response,
          nullish response = false
          /\ Plain "Received unkown action Frobnicate"
             = response_frame (request "Frobnicate") response).
Proof.
  assert (Hin : In (Sent (Plain "Received unkown action Frobnicate"))
                   (events_of (listen (frame "Frobnicate")
                                      (opened true 5 0))))
    by (do 4 right; left; reflexivity).
  split; [exact Hin |].
  exact (every_frame_answers_its_request
           atCapacity statusCodes obliging
           (opened true 5 0) (frame "Frobnicate") _ Hin).
Defined.

Lemma sign_out_in_either_state_on_sample :
  let msg := asking "SignOut" (VObj [("sessionId", VStr "sid")]) in
  let rq := {| requestId := VStr "r1"; action := VStr "SignOut";
               params := VObj [("sessionId", VStr "sid")] |} in
  read_request FOUR_HUNDRED_KB msg = Some rq
  /\ is_string (action rq) "SignOut" = true
  /\ fst (atCapacity (limiter_of (opened false 5 0))) = false
  /\ member (params rq) "sessionId" = inr (VStr "sid")
  /\ listen msg (opened false 5 0)
     = (Normal tt, opened false 5 1,
        [Parsing;
         Logged info "Received WebSocket request";
         Consulted false;
         Invoked (signOut (VStr "sid"));
         Logged info "Sent response over WebSocket";
         Sent (response_frame rq (VObj [("status", VNum "200")]))]).
Proof.
  intros msg rq.
  repeat (split; [reflexivity |]).
  exact (sign_out_in_either_state
           atCapacity statusCodes obliging
           (opened false 5 0) msg rq (VStr "sid")
           (VObj [("status", VNum "200")]) false tt
           eq_refl eq_refl eq_refl eq_refl eq_refl eq_refl).
Defined.

Lemma missing_params_unanswered_on_sample :
  let msg := asking "Insert" VNull in
  let rq := {| requestId := VStr "r1"; action := VStr "Insert";
               params := VNull |} in
  read_request FOUR_HUNDRED_KB msg = Some rq
  /\ nullish (params rq) = true
  /\ reads_params (keyValidated (conn (opened true 5 0))) (action rq) = true
  /\ fst (atCapacity (limiter_of (opened true 5 0))) = false
  /\ listen msg (opened true 5 0)
     = (Normal tt, opened true 5 1,
        [Parsing;
         Logged info "Received WebSocket request";
         Consulted false;
         Logged error "Error in Websocket handling message"]).
Proof.
  intros msg rq.
  repeat (split; [reflexivity |]).
  exact (missing_params_unanswered
           atCapacity statusCodes obliging
           (opened true 5 0) msg rq eq_refl eq_refl eq_refl eq_refl).
Defined.

Lemma empty_response_not_sent_on_sample :
  read_request FOUR_HUNDRED_KB (frame "DeleteUser")
    = Some (request "DeleteUser")
  /\ dispatch statusCodes absent_minded (VStr "DeleteUser") (VObj [])
              (opened true 5 1)
     = (Normal VUndefined, opened true 5 1, [Invoked deleteUserController])
  /\ on_message atCapacity statusCodes absent_minded (frame "DeleteUser")
                (opened true 5 0)
     = (Normal tt, opened true 5 1,
        [Parsing;
         Logged info "Received WebSocket request";
         Consulted false;
         Invoked deleteUserController;
         Logged error "Error in Websocket handling message"]).
Proof.
  repeat (split; [reflexivity |]).
  exact (proj1 (empty_response_not_sent
                  atCapacity statusCodes absent_minded
                  (opened true 5 0) (frame "DeleteUser")
                  (request "DeleteUser") VUndefined (opened true 5 1)
                  [Invoked deleteUserController]
                  eq_refl eq_refl eq_refl eq_refl eq_refl)).
Defined.

Lemma json_that_is_no_object_on_sample :
  too_large FOUR_HUNDRED_KB (json (VNum "42")) = false
  /\ msg_parse (json (VNum "42")) = Parses (VNum "42")
  /\ listen (json (VNum "42")) (opened true 5 0)
     = (Returned, opened true 5 1,
        [Parsing;
         Logged info "Received WebSocket request";
         Consulted false;
         Logged error "Received unknown action over WebSocket";
         Sent (Plain "Received unkown action undefined")]).
Proof.
  repeat (split; [reflexivity |]).
  refine (proj2 (json_that_is_no_object
                   atCapacity statusCodes obliging
                   (opened true 5 0) (json (VNum "42")) (VNum "42")
                   eq_refl eq_refl eq_refl _ eq_refl)).
  intros fields H. discriminate H.
Defined.

Lemma terminated_iff_irregular_on_sample :
  closed (opened true 5 0) = false
  /\ closed (fst (run listen
                      [Sweep; Frame (frame "Pong"); Sweep; Sweep]
                      (opened true 5 0))) = true.
Proof.
  split; [reflexivity |].
  exact (terminated_iff_irregular
           atCapacity statusCodes obliging
           [Sweep; Frame (frame "Pong"); Sweep; Sweep]
           (opened true 5 0) eq_refl).
Defined.

Lemma forgot_password_exchange_ends_socket_on_sample :
  let msg :=
    text 60 (Parses (VObj [("action", VStr "ForgotPassword");
                           ("params",
                            VObj [("forgotPasswordToken", VStr "t")])])) in
  let rq := {| requestId := VUndefined; action := VStr "ForgotPassword";
               params := VObj [("forgotPasswordToken", VStr "t")] |} in
  read_request FIVE_KB msg = Some rq
  /\ on_forgot_password_message statusCodes refusing msg (opened false 5 0)
     = (Normal tt, ended (opened false 5 0),
        [Parsing;
         Invoked (forgotPassword (VStr "t"));
         Sent (JSON_stringify (VObj [("route", VStr "Error");
                                     ("status", VNum "401");
                                     ("data", VStr "nope")]));
         Terminate]).
Proof.
  intros msg rq.
  split; [reflexivity |].
  exact (proj1 (forgot_password_exchange_ends_socket
                  statusCodes refusing (opened false 5 0) msg rq
                  (VStr "t")
                  (VObj [("status", VNum "401"); ("data", VStr "nope")])
                  (VNum "401") (VStr "nope") false tt
                  eq_refl eq_refl eq_refl eq_refl eq_refl eq_refl)).
Defined.

Lemma forgot_password_failure_leaves_socket_open_on_sample :
  let msg :=
    text 60 (Parses (VObj [("action", VStr "ForgotPassword");
                           ("params",
                            VObj [("forgotPasswordToken", VStr "t")])])) in
  let rq := {| requestId := VUndefined; action := VStr "ForgotPassword";
               params := VObj [("forgotPasswordToken", VStr "t")] |} in
  read_request FIVE_KB msg = Some rq
  /\ on_forgot_password_message statusCodes failing msg (opened false 5 0)
     = (Normal tt, opened false 5 0,
        [Parsing;
         Invoked (forgotPassword (VStr "t"));
         Logged error "Error in forgot-password Websocket"]).
Proof.
  intros msg rq.
  split; [reflexivity |].
  exact (forgot_password_failure_leaves_socket_open
           statusCodes failing (opened false 5 0) msg rq
           (VStr "t") (Rejects (VStr "store unreachable")) false tt
           eq_refl eq_refl eq_refl eq_refl I).
Defined.

Lemma forgot_password_opening_on_sample :
  on_forgot_password statusCodes refusing (opened false 5 0)
  = (Normal false, ended (opened false 5 0),
     [Logged info "Opened forgot-password WebSocket";
      Invoked generateForgotPasswordToken;
      Sent (JSON_stringify (VObj [("route", VStr "Error");
                                  ("status", VNum "401");
                                  ("data", VStr "nope")]));
      Terminate])
  /\ on_forgot_password statusCodes issuing (opened false 5 0)
     = (Normal true, opened false 5 0,
        [Logged info "Opened forgot-password WebSocket";
         Invoked generateForgotPasswordToken;
         Sent (JSON_stringify
                 (VObj [("route", VStr "ReceiveEncryptedToken");
                        ("dhKeySalt", VStr "s2");
                        ("encryptedForgotPasswordToken", VStr "sealed")]))]).
Proof.
  split.
  - exact (proj1 (forgot_password_opening
                    statusCodes refusing (opened false 5 0)
                    (VObj [("status", VNum "401"); ("data", VStr "nope")])
                    (VNum "401") (VStr "nope") false tt
                    eq_refl eq_refl eq_refl)
                 eq_refl).
  - exact (proj2 (forgot_password_opening
                    statusCodes issuing (opened false 5 0) _
                    (VNum "200") _ false tt eq_refl eq_refl eq_refl)
                 eq_refl _ _ _ _ _ eq_refl eq_refl eq_refl eq_refl eq_refl).
Defined.

Lemma refused_connection_is_left_to_the_sweep_on_sample :
  register (VStr "u1") (VStr "taken") (VStr "a1") (VStr "app1") tt
  = (None, tt)
  /\ on_connection register getValidationMessage locals (query "taken")
                   (opened false 5 0)
     = (Normal false, opened false 5 0, [])
  /\ closed (fst (run unheard
                      [Frame (frame "Pong"); Sweep; Frame (frame "Pong");
                       Sweep]
                      (opened false 5 0))) = true.
Proof.
  pose proof (refused_connection_is_left_to_the_sweep
                register getValidationMessage
                (opened false 5 0) locals (query "taken")
                _ _ _ _ _ _ _ _ tt
                eq_refl eq_refl eq_refl eq_refl eq_refl eq_refl eq_refl
                eq_refl eq_refl) as [Hopen Hrun].
  split; [reflexivity |].
  split; [exact Hopen |].
  exact (Hrun [Frame (frame "Pong"); Sweep; Frame (frame "Pong"); Sweep]
              (le_n 2)).
Defined.

Lemma accepted_connection_is_challenged_on_sample :
  let s := {| ws := {| isAlive := false; terminated := false |};
              conn := {| keyValidated := true;
                         rateLimiter := {| capacity := 1; consumed := 9 |} |};
              world := tt |} in
  on_connection register getValidationMessage locals (query "fresh") s
  = (Normal true, opened false 5 0,
     [Logged info "Sending Connection over WebSocket";
      Sent (JSON_stringify
              (VObj [("route", VStr "Connection");
                     ("keySalts",
                      VObj [("encryptionKeySalt", VStr "s1");
                            ("dhKeySalt", VStr "s2");
                            ("hmacKeySalt", VStr "s3")]);
                     ("encryptedValidationMessage", VStr "sealed")]))])
  /\ on_connection register (fun _ => inl (Error "no key")) locals
                   (query "fresh") s
     = (Thrown (Error "no key"), opened false 5 0, []).
Proof.
  intros s. split.
  - exact (proj1 (accepted_connection_is_challenged
                    register getValidationMessage s locals (query "fresh")
                    _ _ _ _ _ _ _ _ _ tt
                    eq_refl eq_refl eq_refl eq_refl eq_refl eq_refl eq_refl
                    eq_refl eq_refl)
                 _ _ _ _ _ _
                 eq_refl eq_refl eq_refl eq_refl eq_refl eq_refl).
  - exact (proj1 (proj2 (accepted_connection_is_challenged
                           register (fun _ => inl (Error "no key")) s
                           locals (query "fresh")
                           _ _ _ _ _ _ _ _ _ tt
                           eq_refl eq_refl eq_refl eq_refl eq_refl eq_refl
                           eq_refl eq_refl eq_refl))
                 (Error "no key") eq_refl).
Defined.

Lemma notify_transaction_replies_once_on_sample :
  let body :=
    VObj [("transaction",
           VObj [("database-id", VStr "db1"); ("seq-no", VNum "7")]);
          ("userId", VStr "u1")] in
  notify_transaction push statusCodes body 0
  = (inr tt, 1,
     [Noted info "Received internal notification to update db";
      Pushed (VObj [("database-id", VStr "db1"); ("seq-no", VNum "7")])
             (VStr "u1");
      Replied None None])
  /\ filter is_replied
            (snd (notify_transaction push statusCodes
                                     (VObj [("userId", VStr "u1")]) 0))
     = [Replied (Some (VNum "500")) (Some push_failed)].
Proof.
  intros body.
  split; [reflexivity |].
  exact (proj1 (proj2 (notify_transaction_replies_once
                         push statusCodes (VObj [("userId", VStr "u1")])
                         VUndefined (VStr "u1") 0 eq_refl eq_refl))).
Defined.


(** An action that is an object with a toString key of its own cannot be
    printed: the request is logged twice and not answered. *)
Example unprintable_action_unanswered :
  listen (text 40 (Parses (VObj [("requestId", VStr "r1");
                                 ("action", VObj [("toString", VNum "1")])])))
         (opened true 5 0)
  = (Normal tt, opened true 5 1,
     [Parsing;
      Logged info "Received WebSocket request";
      Consulted false;
      Logged error "Received unknown action over WebSocket";
      Logged error "Error in Websocket handling message"]).
Proof. reflexivity. Qed.

Lemma controller_call_needs_budget_on_sample :
  In (Invoked (validateKey VUndefined))
     (events_of (listen (frame "ValidateKey") (opened false 5 0)))
  /\ exists rq,
      read_request FOUR_HUNDRED_KB (frame "ValidateKey") = Some rq
      /\ is_string (action rq) "Pong" = false
      /\ fst (atCapacity (limiter_of (opened false 5 0))) = false.
Proof.
  assert (Hin : In (Invoked (validateKey VUndefined))
                   (events_of (listen (frame "ValidateKey")
                                      (opened false 5 0))))
    by (do 3 right; left; reflexivity).
  split; [exact Hin |].
  exact (controller_call_needs_budget
           atCapacity statusCodes obliging
           (opened false 5 0) (frame "ValidateKey") _ Hin).
Defined.

End More_instances.
